(** * coastwatch-scraper: the scheduled scraping run of [src/index.ts]

    A shallow embedding of the worker's [scheduled] handler: the table-row
    loop, the detail-page enrichment, the sanity checks and the write to the
    KV namespace, together with the pieces of the JavaScript run time and of
    cheerio that the handler calls ([parseInt], [parseFloat],
    [String.prototype.split], the two regular expressions, CSS selection over
    a parsed document).

    Conventions of the embedding.
    - A JavaScript string is a [string]: a sequence of 8-bit characters.
      White space is therefore the ASCII part of [StrWhiteSpaceChar].
    - A JavaScript number produced by [parseInt] is its mathematical integer
      value in [Z]; one produced by [parseFloat] is the decimal it denotes
      (sign, mantissa, power of ten), or [NaN], or an infinity.  The final
      rounding to binary64 is not part of the model.
    - [undefined] is [None]. *)

From Stdlib Require Import String Ascii List ZArith NArith QArith Bool Lia.
From Stdlib Require Import Numbers.DecimalString.
From stdpp Require Import gmap strings.
Import ListNotations.

Local Open Scope string_scope.
Local Open Scope list_scope.

#[local] Arguments String.append !s1 s2 : simpl nomatch.

(** ** Characters and strings *)

Module Str.

Definition code (c : ascii) : nat := nat_of_ascii c.

Definition is_digit (c : ascii) : bool :=
  (48 <=? code c)%nat && (code c <=? 57)%nat.

(** The ASCII members of [StrWhiteSpaceChar]: TAB, LF, VT, FF, CR, SP.
    Its other members (U+00A0, U+FEFF, the Unicode space separators and
    line terminators) are not told apart from other characters here. *)
Definition is_space (c : ascii) : bool :=
  ((9 <=? code c)%nat && (code c <=? 13)%nat) || (code c =? 32)%nat.

(** [String.prototype.trimStart]. *)
Fixpoint trimStart (s : string) : string :=
  match s with
  | String c s' => if is_space c then trimStart s' else s
  | EmptyString => EmptyString
  end.

(** [strip p s] removes the prefix [p] of [s], when [s] starts with it. *)
Fixpoint strip (p s : string) : option string :=
  match p, s with
  | EmptyString, _ => Some s
  | String a p', String b s' => if Ascii.eqb a b then strip p' s' else None
  | String _ _, EmptyString => None
  end.

(** [includes p s]: [p] occurs in [s]; this is what [RegExp.prototype.test]
    computes for a pattern made of literal characters only. *)
Fixpoint includes (p s : string) : bool :=
  match strip p s with
  | Some _ => true
  | None => match s with
            | EmptyString => false
            | String _ s' => includes p s'
            end
  end.

(** The longest prefix of decimal digits of [s], and what follows it. *)
Fixpoint span_digits (s : string) : string * string :=
  match s with
  | String c s' =>
      if is_digit c
      then let '(d, r) := span_digits s' in (String c d, r)
      else (EmptyString, s)
  | EmptyString => (EmptyString, EmptyString)
  end.

(** [String.prototype.split] with a one-character separator. *)
Fixpoint split (sep : ascii) (s : string) : list string :=
  match s with
  | EmptyString => [EmptyString]
  | String c s' =>
      if Ascii.eqb c sep then EmptyString :: split sep s'
      else match split sep s' with
           | h :: t => String c h :: t
           | [] => [String c EmptyString]
           end
  end.

(** Splitting at ASCII white space, dropping empty words: the tokens of a
    [class] attribute. *)
Fixpoint words_from (cur : string) (s : string) : list string :=
  match s with
  | EmptyString => match cur with EmptyString => [] | _ => [cur] end
  | String c s' =>
      if is_space c
      then match cur with
           | EmptyString => words_from EmptyString s'
           | _ => cur :: words_from EmptyString s'
           end
      else words_from (cur +:+ String c EmptyString) s'
  end.

Definition words (s : string) : list string := words_from EmptyString s.

Fixpoint all_digits (s : string) : bool :=
  match s with
  | EmptyString => true
  | String c s' => is_digit c && all_digits s'
  end.

Fixpoint concat (l : list string) : string :=
  match l with
  | [] => EmptyString
  | s :: l' => s +:+ concat l'
  end.

(** The first character of [s], if any, is not a digit. *)
Definition stops (s : string) : bool :=
  match s with
  | EmptyString => true
  | String c _ => negb (is_digit c)
  end.

(** [occurs c s]: the character [c] is one of [s]. *)
Fixpoint occurs (c : ascii) (s : string) : bool :=
  match s with
  | EmptyString => false
  | String x s' => Ascii.eqb x c || occurs c s'
  end.

End Str.

(** ** Numbers: [parseInt], [parseFloat], number to string *)

Module Num.

(** The value of [c] as a digit in radix [radix], if it is one. *)
Definition digit_of (radix : N) (c : ascii) : option N :=
  let n := N_of_ascii c in
  let v := if ((48 <=? n) && (n <=? 57))%N then (n - 48)%N
           else if ((97 <=? n) && (n <=? 122))%N then (n - 87)%N
           else if ((65 <=? n) && (n <=? 90))%N then (n - 55)%N
           else radix in
  if (v <? radix)%N then Some v else None.

(** The digits of the longest prefix of [s] made of radix-[radix] digits. *)
Fixpoint leading_digits (radix : N) (s : string) : list N :=
  match s with
  | String c s' =>
      match digit_of radix c with
      | Some d => d :: leading_digits radix s'
      | None => []
      end
  | EmptyString => []
  end.

Definition digits_value (radix : N) (ds : list N) : N :=
  fold_left (fun acc d => (acc * radix + d)%N) ds 0%N.

(** An optional leading sign: [(negative, rest)]. *)
Definition take_sign (s : string) : bool * string :=
  match s with
  | String c s' =>
      if Ascii.eqb c "-" then (true, s')
      else if Ascii.eqb c "+" then (false, s')
      else (false, s)
  | EmptyString => (false, s)
  end.

(** The radix and what is left once a [0x] or [0X] prefix is removed. *)
Definition take_radix (s : string) : N * string :=
  match s with
  | String c0 (String c1 s') =>
      if Ascii.eqb c0 "0" && (Ascii.eqb c1 "x" || Ascii.eqb c1 "X")
      then (16%N, s') else (10%N, s)
  | _ => (10%N, s)
  end.

(** [parseInt(s)] with no radix argument; [None] is [NaN].  The value is
    the exact integer read: the rounding to binary64 past 2^53, and to an
    infinity for numerals of some 310 digits or more, is left out. *)
Definition parseInt (s : string) : option Z :=
  let '(neg, s1) := take_sign (Str.trimStart s) in
  let '(radix, s2) := take_radix s1 in
  match leading_digits radix s2 with
  | [] => None
  | ds => let v := Z.of_N (digits_value radix ds) in
          Some (if neg then (- v)%Z else v)
  end.

(** [isNaN] on the result of [parseInt]. *)
Definition isNaN (n : option Z) : bool :=
  match n with None => true | Some _ => false end.

(** A number as [parseFloat] yields it: [Finite neg m e] is
    [(-1)^neg * m * 10^e]. *)
Inductive JSNumber :=
| NaN
| Infinity (neg : bool)
| Finite (neg : bool) (mantissa : N) (exp10 : Z).

Definition value (x : JSNumber) : option Q :=
  match x with
  | Finite neg m e =>
      let q := (inject_Z (Z.of_N m) * Qpower (10 # 1) e)%Q in
      Some (Qred (if neg then Qopp q else q))
  | _ => None
  end.

(** The exponent part [e], [E] then an optional sign then digits; it counts
    only when at least one digit follows. *)
Definition exponent (s : string) : Z :=
  match s with
  | String c s' =>
      if Ascii.eqb c "e" || Ascii.eqb c "E" then
        let '(neg, s1) := take_sign s' in
        match leading_digits 10 s1 with
        | [] => 0%Z
        | ds => let v := Z.of_N (digits_value 10 ds) in
                if neg then (- v)%Z else v
        end
      else 0%Z
  | EmptyString => 0%Z
  end.

(** [parseFloat(s)]: the longest prefix of the trimmed string that is a
    [StrDecimalLiteral].  The value is the exact decimal read: rounding,
    overflow to an infinity and underflow to zero are left out. *)
Definition parseFloat (s : string) : JSNumber :=
  let '(neg, s1) := take_sign (Str.trimStart s) in
  match Str.strip "Infinity" s1 with
  | Some _ => Infinity neg
  | None =>
      let '(ip, r1) := Str.span_digits s1 in
      let '(fp, r2) :=
        match r1 with
        | String c r => if Ascii.eqb c "." then Str.span_digits r
                        else (EmptyString, r1)
        | EmptyString => (EmptyString, r1)
        end in
      match ip +:+ fp with
      | EmptyString => NaN
      | ds => Finite neg (digits_value 10 (leading_digits 10 ds))
                (exponent r2 - Z.of_nat (String.length fp))
      end
  end.

(** The decimal numeral of an integer, as a template literal prints it
    below 1e21; the exponent form printed from there on is left out. *)
Definition toString (z : Z) : string :=
  NilEmpty.string_of_int (Z.to_int z).

End Num.

(** ** Parsed documents and CSS selection (cheerio) *)

Module Dom.

(** A node of a parsed document: character data, or an element with its
    attributes (in source order) and its children. *)
#[local] Set Warnings "-register-all".
Inductive Node :=
| Text (data : string)
| Element (name : string) (attribs : list (string * string))
          (children : list Node).

(** What cheerio's [text()] collects below one node. *)
Fixpoint textContent (n : Node) : string :=
  match n with
  | Text d => d
  | Element _ _ cs =>
      (fix go (l : list Node) : string :=
         match l with
         | [] => EmptyString
         | c :: l' => textContent c +:+ go l'
         end) cs
  end.

Fixpoint getAttribute (a : string) (attribs : list (string * string))
  : option string :=
  match attribs with
  | [] => None
  | (k, v) :: rest => if String.eqb k a then Some v else getAttribute a rest
  end.

(** The simple selectors the handler uses. *)
Inductive Simple :=
| Tag (t : string)
| Class (c : string)
| NthChild (n : nat)
| AttrContains (a v : string)
| Not (s : Simple).

(** A compound selector is a conjunction of simple ones; a selector is a
    chain of compounds joined by the descendant combinator, outermost
    first. *)
Definition Compound := list Simple.
Definition Selector := list Compound.

(** What matching looks at in an element: its name, its attributes and its
    position (from 1) among the element children of its parent. *)
Record Site := { tagName : string; attrs : list (string * string); index : nat }.

Fixpoint matches_simple (s : Simple) (e : Site) : bool :=
  match s with
  | Tag t => String.eqb (tagName e) t
  | Class c =>
      match getAttribute "class" (attrs e) with
      | Some v => existsb (String.eqb c) (Str.words v)
      | None => false
      end
  | NthChild n => Nat.eqb (index e) n
  | AttrContains a v =>
      match getAttribute a (attrs e) with
      | Some x => Str.includes v x
      | None => false
      end
  | Not s' => negb (matches_simple s' e)
  end.

Definition matches_compound (c : Compound) (e : Site) : bool :=
  forallb (fun s => matches_simple s e) c.

(** [above cs anc]: the compounds [cs] (innermost first) are matched, in
    order, by some of the ancestors [anc] (nearest first). *)
Fixpoint above (cs : list Compound) (anc : list Site) : bool :=
  match cs with
  | [] => true
  | c :: cs' =>
      (fix seek (l : list Site) : bool :=
         match l with
         | [] => false
         | a :: l' => if matches_compound c a then above cs' l' else seek l'
         end) anc
  end.

Definition matches (sel : Selector) (e : Site) (anc : list Site) : bool :=
  match rev sel with
  | [] => false
  | c :: outer => matches_compound c e && above outer anc
  end.

(** The elements below (and including) [n] that [sel] matches, in document
    order; [anc] are the ancestors of [n] and [i] its position. *)
Fixpoint select_node (sel : Selector) (anc : list Site) (i : nat) (n : Node)
  : list Node :=
  match n with
  | Text _ => []
  | Element nm at_ cs =>
      let me := {| tagName := nm; attrs := at_; index := i |} in
      (if matches sel me anc then [n] else [])
      ++ (fix go (j : nat) (l : list Node) : list Node :=
            match l with
            | [] => []
            | c :: l' =>
                select_node sel (me :: anc) j c
                ++ go (match c with Element _ _ _ => S j | Text _ => j end) l'
            end) 1%nat cs
  end.

Fixpoint select_nodes (sel : Selector) (anc : list Site) (j : nat)
  (l : list Node) : list Node :=
  match l with
  | [] => []
  | c :: l' =>
      select_node sel anc j c
      ++ select_nodes sel anc
           (match c with Element _ _ _ => S j | Text _ => j end) l'
  end.

(** A loaded document is the list of its top-level nodes; [$(sel)]. *)
Definition Document := list Node.

Definition query (doc : Document) (sel : Selector) : list Node :=
  select_nodes sel [] 1%nat doc.

(** [$(n).find(sel)]: the descendants of [n] that [sel] matches.  The
    handler only passes one-compound selectors here, for which the
    ancestors of [n] play no part. *)
Definition find (n : Node) (sel : Selector) : list Node :=
  match n with
  | Text _ => []
  | Element _ _ cs => select_nodes sel [] 1%nat cs
  end.

(** [.text()] of a selection. *)
Definition text (sel : list Node) : string :=
  Str.concat (map textContent sel).

(** [.first()] of a selection. *)
Definition first (sel : list Node) : list Node :=
  match sel with
  | [] => []
  | n :: _ => [n]
  end.

(** [.attr(a)] of a selection: the attribute of its first element. *)
Definition attr (a : string) (sel : list Node) : option string :=
  match sel with
  | Element _ at_ _ :: _ => getAttribute a at_
  | _ => None
  end.

(** Whether attribute [a] of the element [n] contains [v]: what
    [[a*=v]] asks of an element. *)
Definition attrContains (a v : string) (n : Node) : bool :=
  match n with
  | Element _ at_ _ =>
      match getAttribute a at_ with
      | Some x => Str.includes v x
      | None => false
      end
  | Text _ => false
  end.

(** Induction on a node with the property known of all its children. *)
Fixpoint Node_forall_ind (P : Node -> Prop)
  (HText : forall d, P (Text d))
  (HElement : forall nm at_ cs, Forall P cs -> P (Element nm at_ cs))
  (n : Node) : P n :=
  match n with
  | Text d => HText d
  | Element nm at_ cs =>
      HElement nm at_ cs
        ((fix all (l : list Node) : Forall P l :=
            match l with
            | [] => @List.Forall_nil Node P
            | c :: l' =>
                @List.Forall_cons Node P c l'
                  (Node_forall_ind P HText HElement c) (all l')
            end) cs)
  end.

End Dom.

(** ** The feature collection *)

Record Properties := {
  name : string;
  url : string;
  imageUrl : option string;
  numReports : option Z;
  mileNumber : Z
}.

Record Point := { coordinates : list Num.JSNumber }.

(** [MileFeature]; the constant [type] fields are left out. *)
Record MileFeature := {
  id : Z;
  properties : Properties;
  geometry : Point
}.

Record FeatureCollection := {
  updatedAt : string;
  features : list MileFeature
}.

Definition set_imageUrl (u : string) (f : MileFeature) : MileFeature :=
  let p := properties f in
  {| id := id f;
     properties := {| name := name p; url := url p; imageUrl := Some u;
                      numReports := numReports p; mileNumber := mileNumber p |};
     geometry := geometry f |}.

Definition set_numReports (n : Z) (f : MileFeature) : MileFeature :=
  let p := properties f in
  {| id := id f;
     properties := {| name := name p; url := url p; imageUrl := imageUrl p;
                      numReports := Some n; mileNumber := mileNumber p |};
     geometry := geometry f |}.

(** JavaScript truthiness of an optional string and of an optional number. *)
Definition truthy (o : option string) : bool :=
  match o with
  | Some s => negb (String.eqb s EmptyString)
  | None => false
  end.

Definition truthy_number (o : option Z) : bool :=
  match o with
  | Some n => negb (Z.eqb n 0)
  | None => false
  end.

(** ** The world a run acts on *)

(** What the handler takes from its platform and its libraries: the network
    ([fetch] followed by [response.text()], [None] when either promise
    rejects; the first argument counts the events of the run so far, so the
    same address may answer differently each time), the status of each
    response (which the handler never reads: lines 160-163 and 206-207 call
    [response.text()] and nothing else), cheerio's HTML parser, [slugify],
    [String.prototype.toLowerCase], the clock and [JSON.stringify]. *)
Class Host := {
  network : nat -> string -> option string;
  httpStatus : nat -> string -> nat;
  load : string -> Dom.Document;
  slugify : string -> string;
  toLowerCase : string -> string;
  now : string;
  stringify : FeatureCollection -> string
}.

Inductive Event :=
| Fetched (address : string)
| Put (key value : string).

(** The events of the run so far, oldest first, and the KV namespace
    [env.miles]. *)
Record World := {
  trace : list Event;
  miles_kv : gmap string string
}.

Inductive Failure :=
| Rejected (address : string)
| Error (message : string).

Inductive Outcome (A : Type) :=
| Return (a : A)
| Throw (e : Failure).
Arguments Return {A} a.
Arguments Throw {A} e.

(** A computation that may await the network or the store and may throw. *)
Definition M (A : Type) : Type := World -> Outcome A * World.

Definition ret {A} (a : A) : M A := fun w => (Return a, w).

Definition bind {A B} (m : M A) (k : A -> M B) : M B :=
  fun w => match m w with
           | (Return a, w') => k a w'
           | (Throw e, w') => (Throw e, w')
           end.

Definition throw {A} (message : string) : M A :=
  fun w => (Throw (Error message), w).

Notation "'let*' x ':=' m 'in' k" := (bind m (fun x => k))
  (at level 10, x name, m at level 100, k at level 200).

Definition record (e : Event) (w : World) : World :=
  {| trace := trace w ++ [e]; miles_kv := miles_kv w |}.

Section Handler.

Context {host : Host}.

(** [await fetch(address)] then [await response.text()]. *)
Definition fetchText (address : string) : M string :=
  fun w =>
    match network (length (trace w)) address with
    | Some body => (Return body, record (Fetched address) w)
    | None => (Throw (Rejected address), record (Fetched address) w)
    end.

(** [await env.miles.put(key, value)]. *)
Definition put (key value : string) : M unit :=
  fun w =>
    (Return tt,
     {| trace := trace w ++ [Put key value];
        miles_kv := <[key := value]> (miles_kv w) |}).

Definition sheet : string :=
  "https://docs.google.com/spreadsheets/d/e/2PACX-1vSp5MoqyAVhnJ62MKhBcQOWZmfs31cYbkM5Jp1yl1k2eDoa26EswGD4x_ephhuFXvYst2VgCaw3Qvau/pubhtml".

(** *** One table row (lines 174-200) *)

Definition rows : Dom.Selector :=
  [[Dom.Tag "table"]; [Dom.Tag "tbody"]; [Dom.Tag "tr"]].

Definition td (k : nat) : Dom.Selector := [[Dom.Tag "td"; Dom.NthChild k]].

(** [$(row).find("td:nth-child(k)").text()]. *)
Definition cell (row : Dom.Node) (k : nat) : string :=
  Dom.text (Dom.find row (td k)).

(** [/never captured on OSCC website/.test(name)]. *)
Definition neverCaptured (name : string) : bool :=
  Str.includes "never captured on OSCC website" name.

Definition mileUrl (id : Z) (name : string) : string :=
  "https://oregonshores.org/mile/mile-" +:+ Num.toString id +:+ "-"
    +:+ slugify (toLowerCase name) +:+ "/".

(** The feature a row gives, or [None] when the loop [continue]s. *)
Definition parseRow (row : Dom.Node) : option MileFeature :=
  let id := Num.parseInt (cell row 2) in
  match id with
  | None => None
  | Some id =>
      let name := cell row 3 in
      if neverCaptured name then None
      else
        let coords := rev (Str.split "," (cell row 5)) in
        Some {| id := id;
                properties := {| name := name; url := mileUrl id name;
                                 imageUrl := None; numReports := None;
                                 mileNumber := id |};
                geometry := {| coordinates := map Num.parseFloat coords |} |}
  end.

(** *** One detail page (lines 208-233) *)

Definition mileImage : Dom.Selector :=
  [[Dom.Tag "img"; Dom.Class "mile-image"]].

Definition reportImage : Dom.Selector :=
  [[Dom.Tag "img"; Dom.Class "mile-report-result-image";
    Dom.Not (Dom.AttrContains "alt" "decorative")]].

Definition numResults : Dom.Selector :=
  [[Dom.Class "results-meta"]; [Dom.Class "num-results"]; [Dom.Tag "p"]].

(** The image address the page gives, if any (lines 210-224). *)
Definition pickImage (page : Dom.Document) : option string :=
  let imageUrl := Dom.attr "src" (Dom.query page mileImage) in
  if truthy imageUrl then imageUrl
  else
    let reportImageUrl :=
      Dom.attr "src" (Dom.first (Dom.query page reportImage)) in
    if truthy reportImageUrl then reportImageUrl else None.

(** [/Showing \d+ of (\d+) reports/] tried at the start of [s]: the text of
    the group.  Neither [\d+] can give digits back, since what follows
    each is not a digit. *)
Definition showing_here (s : string) : option string :=
  match Str.strip "Showing " s with
  | None => None
  | Some r1 =>
      let '(shown, r2) := Str.span_digits r1 in
      if String.eqb shown EmptyString then None
      else match Str.strip " of " r2 with
           | None => None
           | Some r3 =>
               let '(total, r4) := Str.span_digits r3 in
               if String.eqb total EmptyString then None
               else match Str.strip " reports" r4 with
                    | None => None
                    | Some _ => Some total
                    end
           end
  end.

(** [/Showing \d+ of (\d+) reports/.exec(s)]: group 1 of the leftmost
    match, [None] for [null]. *)
Fixpoint exec_showing (s : string) : option string :=
  match showing_here s with
  | Some total => Some total
  | None => match s with
            | EmptyString => None
            | String _ s' => exec_showing s'
            end
  end.

(** The report count the page gives, if any (lines 226-233). *)
Definition countReports (page : Dom.Document) : option Z :=
  let reports := Dom.text (Dom.query page numResults) in
  let data := exec_showing reports in
  match data with
  | Some d =>
      if truthy (Some d) then
        let numReports := Num.parseInt d in
        if negb (Num.isNaN numReports) then numReports else None
      else None
  | None => None
  end.

Definition enrich (page : Dom.Document) (feature : MileFeature) : MileFeature :=
  let feature :=
    match pickImage page with
    | Some u => set_imageUrl u feature
    | None => feature
    end in
  match countReports page with
  | Some n => set_numReports n feature
  | None => feature
  end.

(** *** The loop over the rows (lines 171-236) *)

Definition visit (imagesFetched : nat) (feature : MileFeature) : M MileFeature :=
  if (imagesFetched <? 500)%nat then
    let* body := fetchText (url (properties feature)) in
    ret (enrich (load body) feature)
  else ret feature.

Fixpoint forRows (table : list Dom.Node) (imagesFetched : nat)
  (acc : list MileFeature) : M (list MileFeature) :=
  match table with
  | [] => ret acc
  | row :: rest =>
      match parseRow row with
      | None => forRows rest imagesFetched acc
      | Some feature =>
          let* feature' := visit imagesFetched feature in
          forRows rest (S imagesFetched) (acc ++ [feature'])
      end
  end.

(** *** The sanity checks (lines 241-253) *)

Definition noImages : string :=
  "No images found for any miles. Could the website have changed?".
Definition noReports : string :=
  "No reports found for any miles. Could the website have changed?".
Definition onlyFound (n : nat) : string :=
  "Only found " +:+ Num.toString (Z.of_nat n)
    +:+ " miles. Could the website have changed?".

(** The message of the error thrown, [None] when none is. *)
Definition check (fs : list MileFeature) : option string :=
  match List.find (fun mile => negb (truthy (imageUrl (properties mile)))) fs with
  | None => Some noImages
  | Some _ =>
      match List.find (fun mile => negb (truthy_number (numReports (properties mile)))) fs with
      | None => Some noReports
      | Some _ =>
          if (length fs <? 10)%nat then Some (onlyFound (length fs))
          else None
      end
  end.

(** *** [scheduled] (lines 159-257) *)

Definition scheduled : M unit :=
  let* body := fetchText sheet in
  let table := Dom.query (load body) rows in
  let* fs := forRows table 0 [] in
  let miles := {| updatedAt := now; features := fs |} in
  match check (features miles) with
  | Some message => throw message
  | None => put "miles" (stringify miles)
  end.

End Handler.

(** ** Vocabulary of the statements *)

(** The report images of a page, decorative or not, and what the [:not]
    part of [reportImage] looks at. *)
Definition reportImages : Dom.Selector :=
  [[Dom.Tag "img"; Dom.Class "mile-report-result-image"]].

Definition decorative (n : Dom.Node) : bool :=
  Dom.attrContains "alt" "decorative" n.

(** A feature with its two optional properties taken away. *)
Definition unenriched (f : MileFeature) : MileFeature :=
  let p := properties f in
  {| id := id f;
     properties := {| name := name p; url := url p; imageUrl := None;
                      numReports := None; mileNumber := mileNumber p |};
     geometry := geometry f |}.

Definition urlOf (f : MileFeature) : string := url (properties f).

(** [f] is the parsed record [p], visited or not. *)
Definition comes_from `{Host} (p f : MileFeature) : Prop :=
  f = p \/ exists body, f = enrich (load body) p.

(** A fetch that fails in the wide sense of the design text (section 4.2:
    network error or non-success status): request [n], to [address], is
    rejected or is answered with a status outside 200-299.  The handler only
    ever sees the first kind. *)
Definition fetchFails `{Host} (n : nat) (address : string) : bool :=
  match network n address with
  | None => true
  | Some _ =>
      negb ((200 <=? httpStatus n address)%nat
            && (httpStatus n address <=? 299)%nat)
  end.

(** Every request among [evs], the events that follow the first [base]
    events of a run, got its answer. *)
Definition answered `{Host} (base : nat) (evs : list Event) : Prop :=
  forall i u,
    nth_error evs i = Some (Fetched u) -> network (base + i) u <> None.

(** The writes to the KV namespace among some events. *)
Fixpoint puts (evs : list Event) : list (string * string) :=
  match evs with
  | [] => []
  | Put k v :: evs' => (k, v) :: puts evs'
  | Fetched _ :: evs' => puts evs'
  end.

(** The features the rows of a table give, in row order. *)
Fixpoint parseRows `{Host} (table : list Dom.Node) : list MileFeature :=
  match table with
  | [] => []
  | row :: rest =>
      match parseRow row with
      | Some f => f :: parseRows rest
      | None => parseRows rest
      end
  end.

(** [Showing x of total reports] somewhere in [s], [x] and [total] being
    numerals. *)
Definition shows (s total : string) : Prop :=
  exists before x after,
    s = before +:+ "Showing " +:+ x +:+ " of " +:+ total +:+ " reports" +:+ after
    /\ x <> EmptyString /\ Str.all_digits x = true
    /\ total <> EmptyString /\ Str.all_digits total = true.

(** ** Sample documents and hosts *)

Module Sample.
Import Dom.

Definition td (s : string) : Node := Element "td" [] [Text s].

(** A row as the published sheet has them: a row header, then the cells. *)
Definition tr (cells : list string) : Node :=
  Element "tr" [] (Element "th" [] [Text "1"] :: map td cells).

Definition sheetOf (trs : list Node) : Document :=
  [Element "html" []
     [Element "body" []
        [Element "table" [("class", "waffle")]
           [Element "tbody" [] trs]]]].

Definition header : Node := tr ["Mile"; "Name"; "North"; "South"].

Definition mile (k : nat) : Node :=
  tr [Num.toString (Z.of_nat k); "Cape Lookout"; "45.35,-123.97"; "44.1,-124.0"].

Definition placeholder : Node :=
  tr ["7"; "Mile 7 (never captured on OSCC website)"; "45.0,-124.0"; "44.9,-124.0"].

Definition badCoordinates : Node :=
  tr ["8"; "Sand Lake"; "north"; "south,unknown"].

Definition miles (n : nat) : list Node := map mile (seq 1 n).

(** A detail page with a mile image and the pagination text. *)
Definition fullPage : Document :=
  [Element "div" []
     [Element "img" [("class", "mile-image"); ("src", "mile.jpg")] [];
      Element "div" [("class", "results-meta")]
        [Element "div" [("class", "num-results")]
           [Element "p" [] [Text "Showing 3 of 47 reports"]]]]].

(** A detail page with an empty mile image, a decorative report image and
    two real ones. *)
Definition reportPage : Document :=
  [Element "div" []
     [Element "img" [("class", "mile-image"); ("src", "")] [];
      Element "img" [("class", "mile-report-result-image");
                     ("alt", "decorative placeholder"); ("src", "blank.png")] [];
      Element "img" [("class", "mile-report-result-image");
                     ("alt", "the beach"); ("src", "report1.jpg")] [];
      Element "img" [("class", "mile-report-result-image");
                     ("src", "report2.jpg")] []]].

(** A detail page with nothing to extract. *)
Definition barePage : Document := [Element "div" [] [Text "Not found"]].

(** A detail page with the pagination text but no image. *)
Definition countPage : Document :=
  [Element "div" [("class", "results-meta")]
     [Element "div" [("class", "num-results")]
        [Element "p" [] [Text "Showing 3 of 47 reports"]]]].

Definition count (fc : FeatureCollection) : string :=
  Num.toString (Z.of_nat (length (features fc))).

(** A host that serves the table [trs] and the same detail [page] for every
    mile; request number [down], if any, is rejected. *)
Definition serving (trs : list Node) (page : Document) (down : option nat)
  : Host :=
  {| network := fun n address =>
       if match down with Some d => Nat.eqb n d | None => false end then None
       else Some (if String.eqb address sheet then "sheet" else "detail");
     httpStatus := fun _ _ => 200;
     load := fun body =>
       if String.eqb body "sheet" then sheetOf trs else page;
     slugify := fun s => s;
     toLowerCase := fun s => s;
     now := "2024-01-01T03:00:00.000Z";
     stringify := count |}.

(** A host with an empty table, for what does not touch the network. *)
Definition quiet : Host := serving [] barePage None.

Definition start : World := {| trace := []; miles_kv := {["miles" := "old"]} |}.

(** A feature as the loop builds it, with the optional properties given. *)
Definition feature (image : option string) (reports : option Z) : MileFeature :=
  {| id := 1;
     properties := {| name := "Cape Lookout"; url := "u"; imageUrl := image;
                      numReports := reports; mileNumber := 1 |};
     geometry := {| coordinates := [] |} |}.

Definition bare : MileFeature := feature None None.
Definition pictured : MileFeature := feature (Some "mile.jpg") None.
Definition counted : MileFeature := feature None (Some 47%Z).
Definition full : MileFeature := feature (Some "mile.jpg") (Some 47%Z).

(** The sheet of the end-to-end scenario: two header rows, ten miles. *)
Definition twelveRows : list Node := header :: header :: miles 10.

End Sample.

(** ** The read endpoint: [fetch] (lines 267-293) *)

Record Request := { method : string }.

(** A [Response]: its body, its status (200 when none is given) and the
    headers given when it is built. *)
Record Response := {
  body : string;
  status : nat;
  headers : list (string * string)
}.

(** [await env.miles.get(key)]: [None] for [null]. *)
Definition get (key : string) : M (option string) :=
  fun w => (Return (miles_kv w !! key), w).

Definition onlyGet : Response :=
  {| body := "Only GET supported"; status := 403; headers := [] |}.

Definition notFound : Response :=
  {| body := "Not found. Cron job did not create dataset?"; status := 404;
     headers := [] |}.

Definition served (featureCollection : string) : Response :=
  {| body := featureCollection;
     status := 200;
     headers := [("content-type", "application/json");
                 ("cache-control", "public, max-age=86400");
                 ("Access-Control-Allow-Origin", "*");
                 ("Access-Control-Allow-Methods", "GET,HEAD,POST,OPTIONS");
                 ("Access-Control-Max-Age", "86400")] |}.

Definition fetch (request : Request) : M Response :=
  if negb (String.eqb (method request) "GET") then ret onlyGet
  else
    let* featureCollection := get "miles" in
    if negb (truthy featureCollection) then ret notFound
    else ret (served (default EmptyString featureCollection)).

(** The handler of the earlier revision of the file (lines 108-124), which
    does not look at the method. *)
Module V1.

Definition fetch (request : Request) : M Response :=
  let* featureCollection := get "miles" in
  if negb (truthy featureCollection) then ret notFound
  else ret (served (default EmptyString featureCollection)).

End V1.

(** How many times the character [c] occurs in [s]. *)
Fixpoint count_char (c : ascii) (s : string) : nat :=
  match s with
  | EmptyString => 0
  | String x s' => (if Ascii.eqb x c then 1 else 0) + count_char c s'
  end.

(** Sample requests and a sample store with no collection. *)
Module Probe.

Definition GET : Request := {| method := "GET" |}.
Definition POST : Request := {| method := "POST" |}.

Definition fresh : World := {| trace := []; miles_kv := empty |}.

Definition emptied : World :=
  {| trace := []; miles_kv := {["miles" := EmptyString]} |}.

(** A sheet none of whose rows gives a record. *)
Definition noMiles : list Dom.Node := [Sample.header; Sample.placeholder].

(** A host whose sheet lists ten miles and whose every detail page is
    answered 404, with a body that holds nothing to extract. *)
Definition missingPages : Host :=
  {| network := fun _ address =>
       Some (if String.eqb address sheet then "sheet" else "detail");
     httpStatus := fun _ address =>
       if String.eqb address sheet then 200 else 404;
     load := fun text =>
       if String.eqb text "sheet" then Sample.sheetOf (Sample.miles 10)
       else Sample.barePage;
     slugify := fun s => s;
     toLowerCase := fun s => s;
     now := "2024-01-01T03:00:00.000Z";
     stringify := Sample.count |}.

(** A detail page whose pagination text is spread over two paragraphs and
    an inner element, next to a paragraph outside [.num-results]. *)
Definition splitPage : Dom.Document :=
  [Dom.Element "div" [("class", "results-meta")]
     [Dom.Element "p" [] [Dom.Text "Showing 9 of 99 reports"];
      Dom.Element "div" [("class", "num-results")]
        [Dom.Element "p" [] [Dom.Text "Showing 3 of "];
         Dom.Element "p" []
           [Dom.Element "b" [] [Dom.Text "47"]; Dom.Text " reports"]]]].

End Probe.

(** ** Facts about the string functions *)

Module StrFacts.
Import Str.

Lemma app_nil_r (s : string) : s +:+ EmptyString = s.
Proof. induction s as [|c s IH]; simpl; [reflexivity | now rewrite IH]. Qed.

Lemma app_assoc (a b c : string) : (a +:+ b) +:+ c = a +:+ (b +:+ c).
Proof. induction a as [|x a IH]; simpl; [reflexivity | now rewrite IH]. Qed.

Lemma strip_app (p r : string) : strip p (p +:+ r) = Some r.
Proof.
  induction p as [|a p IH]; simpl.
  - reflexivity.
  - now rewrite Ascii.eqb_refl.
Qed.

Lemma strip_Some (p s r : string) : strip p s = Some r -> s = p +:+ r.
Proof.
  revert s; induction p as [|a p IH]; intros s; simpl.
  - now intros [= ->].
  - destruct s as [|b s]; [discriminate|].
    destruct (Ascii.eqb_spec a b) as [->|]; [|discriminate].
    intros H. now rewrite (IH _ H).
Qed.

Lemma includes_here (p s r : string) : strip p s = Some r -> includes p s = true.
Proof. intros H. destruct s; simpl; now rewrite H. Qed.

(** [includes] decides the occurrence of the phrase. *)
Lemma includes_iff (p s : string) :
  includes p s = true <-> exists a b, s = a +:+ p +:+ b.
Proof.
  split.
  - induction s as [|c s IH]; simpl.
    + destruct (strip p EmptyString) as [r|] eqn:E; [|discriminate].
      intros _. exists EmptyString, r. simpl. now apply strip_Some.
    + destruct (strip p (String c s)) as [r|] eqn:E.
      * intros _. exists EmptyString, r. simpl. now apply strip_Some.
      * intros H. destruct (IH H) as (a & b & ->).
        now exists (String c a), b.
  - intros (a & b & ->). induction a as [|c a IH]; simpl.
    + apply (includes_here p _ b), strip_app.
    + destruct (strip p (String c (a +:+ p +:+ b))); [reflexivity | exact IH].
Qed.

Lemma span_digits_spec (s : string) :
  s = fst (span_digits s) +:+ snd (span_digits s)
  /\ all_digits (fst (span_digits s)) = true
  /\ stops (snd (span_digits s)) = true.
Proof.
  induction s as [|c s (IH1 & IH2 & IH3)]; simpl.
  - auto.
  - destruct (is_digit c) eqn:D.
    + destruct (span_digits s) as [d r]; simpl in *.
      rewrite D, IH2. repeat split; [congruence | assumption].
    + simpl. now rewrite D.
Qed.

Lemma span_digits_app (d r : string) :
  all_digits d = true -> stops r = true -> span_digits (d +:+ r) = (d, r).
Proof.
  intros Hd Hr. induction d as [|c d IH]; simpl in *.
  - destruct r as [|c r]; [reflexivity|]. simpl in Hr |- *.
    destruct (is_digit c); [discriminate | reflexivity].
  - apply andb_prop in Hd as [Hc Hd]. now rewrite Hc, (IH Hd).
Qed.

Lemma split_whole (sep : ascii) (s : string) :
  occurs sep s = false -> split sep s = [s].
Proof.
  induction s as [|x s IH]; simpl; [reflexivity|].
  intros H. apply orb_false_elim in H as [Hx Hs].
  now rewrite Hx, (IH Hs).
Qed.

Lemma split_cons (sep : ascii) (a b : string) :
  occurs sep a = false ->
  split sep (a +:+ String sep b) = a :: split sep b.
Proof.
  induction a as [|x a IH]; simpl.
  - intros _. now rewrite Ascii.eqb_refl.
  - intros H. apply orb_false_elim in H as [Hx Ha].
    now rewrite Hx, (IH Ha).
Qed.

(** A boundary text [lat,lon] splits in two. *)
Lemma split_pair (sep : ascii) (a b : string) :
  occurs sep a = false -> occurs sep b = false ->
  split sep (a +:+ String sep b) = [a; b].
Proof.
  intros Ha Hb. now rewrite (split_cons _ _ _ Ha), (split_whole _ _ Hb).
Qed.

End StrFacts.

(** ** Facts about selection *)

Module DomFacts.
Import Dom.

Lemma select_node_Element (sel : Selector) (anc : list Site) (i : nat)
  (nm : string) (at_ : list (string * string)) (cs : list Node) :
  select_node sel anc i (Element nm at_ cs) =
    (let me := {| tagName := nm; attrs := at_; index := i |} in
     (if matches sel me anc then [Element nm at_ cs] else [])
     ++ select_nodes sel (me :: anc) 1 cs).
Proof.
  simpl. f_equal. generalize 1%nat.
  induction cs as [|c cs IH]; intros j; simpl; [reflexivity|].
  now rewrite IH.
Qed.

Lemma matches_one (c : Compound) (e : Site) (anc : list Site) :
  matches [c] e anc = matches_compound c e.
Proof. unfold matches; simpl. now rewrite andb_true_r. Qed.

Lemma matches_compound_app (c d : Compound) (e : Site) :
  matches_compound (c ++ d) e = matches_compound c e && matches_compound d e.
Proof. unfold matches_compound. apply forallb_app. Qed.

(** Adding [:not([a*=v])] to a compound selector filters its selection. *)
Lemma select_node_not (c : Compound) (a v : string) (n : Node) :
  forall anc i,
    select_node [c ++ [Not (AttrContains a v)]] anc i n =
    List.filter (fun x => negb (attrContains a v x)) (select_node [c] anc i n).
Proof.
  induction n as [d | nm at_ cs IH] using Node_forall_ind; intros anc i.
  - reflexivity.
  - rewrite !select_node_Element. cbv zeta.
    rewrite List.filter_app. f_equal.
    + rewrite !matches_one, matches_compound_app.
      destruct (matches_compound c _); simpl; [|reflexivity].
      destruct (getAttribute a at_) as [x|]; simpl; [|reflexivity].
      now destruct (Str.includes v x).
    + generalize 1%nat.
      induction IH as [|k cs Hk _ IHcs]; intros j; simpl; [reflexivity|].
      now rewrite List.filter_app, Hk, IHcs.
Qed.

Lemma select_nodes_not (c : Compound) (a v : string) (l : list Node) :
  forall anc j,
    select_nodes [c ++ [Not (AttrContains a v)]] anc j l =
    List.filter (fun x => negb (attrContains a v x)) (select_nodes [c] anc j l).
Proof.
  induction l as [|k l IH]; intros anc j; simpl; [reflexivity|].
  now rewrite List.filter_app, select_node_not, IH.
Qed.

(** The report images the handler considers are the non-decorative ones
    among all report images, in document order. *)
Lemma query_reportImage (page : Document) :
  query page reportImage =
  List.filter (fun x => negb (decorative x)) (query page reportImages).
Proof. apply (select_nodes_not [Tag "img"; Class "mile-report-result-image"]). Qed.

(** Filtering out what [reject] holds of: the first element kept comes
    after rejected ones only. *)
Lemma filter_first {A} (reject : A -> bool) (skipped : list A) (x : A)
  (rest : list A) :
  forallb reject skipped = true -> reject x = false ->
  List.filter (fun y => negb (reject y)) (skipped ++ x :: rest) =
  x :: List.filter (fun y => negb (reject y)) rest.
Proof.
  intros Hs Hx. induction skipped as [|y l IH]; simpl in *.
  - now rewrite Hx.
  - apply andb_prop in Hs as [Hy Hl]. rewrite Hy. simpl. now apply IH.
Qed.

Lemma filter_none {A} (reject : A -> bool) (l : list A) :
  forallb reject l = true -> List.filter (fun y => negb (reject y)) l = [].
Proof.
  induction l as [|y l IH]; simpl; [reflexivity|].
  intros H. apply andb_prop in H as [Hy Hl]. rewrite Hy. simpl. now apply IH.
Qed.

End DomFacts.

(** ** Facts about the handler *)

Section HandlerFacts.

Context {host : Host}.

Lemma parseRow_unenriched (row : Dom.Node) (f : MileFeature) :
  parseRow row = Some f -> unenriched f = f.
Proof.
  unfold parseRow. destruct (Num.parseInt _) as [i|]; [|discriminate].
  destruct (neverCaptured _); [discriminate|]. now intros [= <-].
Qed.

Lemma parseRows_unenriched (table : list Dom.Node) :
  map unenriched (parseRows table) = parseRows table.
Proof.
  induction table as [|row rest IH]; simpl; [reflexivity|].
  destruct (parseRow row) as [f|] eqn:E; [|exact IH].
  simpl. now rewrite IH, (parseRow_unenriched _ _ E).
Qed.

Lemma unenriched_enrich (page : Dom.Document) (f : MileFeature) :
  unenriched (enrich page f) = unenriched f.
Proof.
  unfold enrich. now destruct (pickImage page), (countReports page).
Qed.

Lemma imageUrl_enrich (page : Dom.Document) (f : MileFeature) :
  imageUrl (properties (enrich page f)) =
  match pickImage page with
  | Some u => Some u
  | None => imageUrl (properties f)
  end.
Proof.
  unfold enrich. now destruct (pickImage page), (countReports page).
Qed.

Lemma numReports_enrich (page : Dom.Document) (f : MileFeature) :
  numReports (properties (enrich page f)) =
  match countReports page with
  | Some n => Some n
  | None => numReports (properties f)
  end.
Proof.
  unfold enrich. now destruct (pickImage page), (countReports page).
Qed.

(** What [pickImage] returns is truthy: never the empty string. *)
Lemma pickImage_truthy (page : Dom.Document) (u : string) :
  pickImage page = Some u -> truthy (Some u) = true.
Proof.
  unfold pickImage.
  destruct (truthy (Dom.attr "src" (Dom.query page mileImage))) eqn:E1.
  - now intros <-.
  - destruct (truthy (Dom.attr "src" (Dom.first (Dom.query page reportImage))))
      eqn:E2; [now intros <- | discriminate].
Qed.

Lemma truthy_Some (u : string) : truthy (Some u) = true <-> u <> EmptyString.
Proof.
  simpl. destruct (String.eqb_spec u EmptyString); simpl; split; congruence.
Qed.

(** The four ways one row is dealt with. *)
Lemma forRows_skip (row : Dom.Node) (rest : list Dom.Node) n acc w :
  parseRow row = None ->
  forRows (row :: rest) n acc w = forRows rest n acc w.
Proof. intros E. simpl. now rewrite E. Qed.

Lemma forRows_visit (row : Dom.Node) (rest : list Dom.Node) n acc w f body :
  parseRow row = Some f -> n < 500 ->
  network (length (trace w)) (urlOf f) = Some body ->
  forRows (row :: rest) n acc w =
  forRows rest (S n) (acc ++ [enrich (load body) f])
    (record (Fetched (urlOf f)) w).
Proof.
  intros E Hn Hb. apply Nat.ltb_lt in Hn. unfold urlOf in *. simpl.
  rewrite E. unfold visit. rewrite Hn. unfold bind, fetchText, ret.
  now rewrite Hb.
Qed.

Lemma forRows_rejected (row : Dom.Node) (rest : list Dom.Node) n acc w f :
  parseRow row = Some f -> n < 500 ->
  network (length (trace w)) (urlOf f) = None ->
  forRows (row :: rest) n acc w =
  (Throw (Rejected (urlOf f)), record (Fetched (urlOf f)) w).
Proof.
  intros E Hn Hb. apply Nat.ltb_lt in Hn. unfold urlOf in *. simpl.
  rewrite E. unfold visit. rewrite Hn. unfold bind, fetchText, ret.
  now rewrite Hb.
Qed.

Lemma forRows_pass (row : Dom.Node) (rest : list Dom.Node) n acc w f :
  parseRow row = Some f -> 500 <= n ->
  forRows (row :: rest) n acc w = forRows rest (S n) (acc ++ [f]) w.
Proof.
  intros E Hn. apply Nat.ltb_ge in Hn. simpl.
  rewrite E. unfold visit. rewrite Hn. reflexivity.
Qed.

(** One pass of the loop from row [n] on: it fetches the addresses of the
    first parsed records, at most [500 - n] of them, leaves the store alone,
    and either a fetch is rejected or every parsed record is pushed. *)
Lemma forRows_run (table : list Dom.Node) :
  forall n acc w,
    exists m,
      m <= 500 - n
      /\ trace (snd (forRows table n acc w)) =
         trace w ++ map Fetched (map urlOf (firstn m (parseRows table)))
      /\ miles_kv (snd (forRows table n acc w)) = miles_kv w
      /\ match fst (forRows table n acc w) with
         | Return fs =>
             m = 500 - n
             /\ exists out,
                 fs = acc ++ out
                 /\ Forall2 comes_from (parseRows table) out
                 /\ skipn (500 - n) out = skipn (500 - n) (parseRows table)
         | Throw e =>
             exists before p,
               firstn m (parseRows table) = before ++ [p]
               /\ e = Rejected (urlOf p)
         end.
Proof.
  induction table as [|row rest IH]; intros n acc w.
  - exists (500 - n). simpl. rewrite firstn_nil, skipn_nil. simpl.
    rewrite !app_nil_r. repeat split; try lia.
    exists []. rewrite app_nil_r, skipn_nil. repeat split. constructor.
  - destruct (parseRow row) as [f|] eqn:E.
    2:{ rewrite (forRows_skip _ _ _ _ _ E). simpl. rewrite E. apply IH. }
    simpl parseRows. rewrite E.
    destruct (Nat.lt_ge_cases n 500) as [Hn|Hn].
    + destruct (network (length (trace w)) (urlOf f)) as [body|] eqn:Hb.
      * rewrite (forRows_visit _ _ _ _ _ _ _ E Hn Hb).
        destruct (IH (S n) (acc ++ [enrich (load body) f])
                    (record (Fetched (urlOf f)) w))
          as (m & Hm & Ht & Hk & Ho).
        exists (S m). split; [lia|]. rewrite Ht, Hk. simpl.
        rewrite <- app_assoc. repeat split.
        destruct (fst (forRows rest (S n) _ _)) as [fs|e].
        2:{ destruct Ho as (before & p & Hb' & ->).
            exists (f :: before), p. now rewrite Hb'. }
        destruct Ho as (-> & out & -> & HF & Hs).
        split; [lia|]. exists (enrich (load body) f :: out).
        rewrite <- app_assoc. split; [reflexivity|]. split.
        -- constructor; [right; now exists body | exact HF].
        -- replace (500 - n) with (S (500 - S n)) by lia. exact Hs.
      * rewrite (forRows_rejected _ _ _ _ _ _ E Hn Hb).
        exists 1. simpl. repeat split; [lia|]. now exists [], f.
    + rewrite (forRows_pass _ _ _ _ _ _ E Hn).
      destruct (IH (S n) (acc ++ [f]) w) as (m & Hm & Ht & Hk & Ho).
      assert (m = 0) as -> by lia.
      exists 0. split; [lia|]. rewrite Ht, Hk. simpl. repeat split.
      destruct (fst (forRows rest (S n) _ _)) as [fs|e].
      2:{ destruct Ho as (before & p & Hb' & _).
          now destruct before. }
      destruct Ho as (_ & out & -> & HF & Hs).
      split; [lia|]. exists (f :: out).
      rewrite <- app_assoc. split; [reflexivity|]. split.
      * constructor; [now left | exact HF].
      * replace (500 - n) with 0 by lia.
        replace (500 - S n) with 0 in Hs by lia.
        rewrite skipn_O in Hs |- *. now rewrite Hs, skipn_O.
Qed.

End HandlerFacts.

(** ** The run as a whole: fetches, cap and persistence *)

Section Run.

Context {host : Host}.

Lemma puts_app (a b : list Event) : puts (a ++ b) = puts a ++ puts b.
Proof.
  induction a as [|[u|k v] a IH]; simpl; [reflexivity | exact IH |].
  now rewrite IH.
Qed.

Lemma puts_fetched (urls : list string) : puts (map Fetched urls) = [].
Proof. induction urls as [|u urls IH]; simpl; [reflexivity | exact IH]. Qed.

Lemma parseRows_bare (table : list Dom.Node) :
  Forall (fun f => imageUrl (properties f) = None
                   /\ numReports (properties f) = None) (parseRows table).
Proof.
  induction table as [|row rest IH]; simpl; [constructor|].
  destruct (parseRow row) as [f|] eqn:E; [|exact IH].
  constructor; [|exact IH].
  apply parseRow_unenriched in E. rewrite <- E. now split.
Qed.

Lemma comes_from_unenriched (ps out : list MileFeature) :
  Forall2 comes_from ps out -> map unenriched out = map unenriched ps.
Proof.
  induction 1 as [|p f ps out [->|[body ->]] _ IH]; simpl;
    [reflexivity | now rewrite IH |].
  now rewrite unenriched_enrich, IH.
Qed.


(** [scheduled] with its awaits spelled out. *)
Lemma scheduled_run (w : World) :
  scheduled w =
  match network (length (trace w)) sheet with
  | None => (Throw (Rejected sheet), record (Fetched sheet) w)
  | Some body =>
      match forRows (Dom.query (load body) rows) 0 []
              (record (Fetched sheet) w) with
      | (Throw e, w2) => (Throw e, w2)
      | (Return fs, w2) =>
          let miles := {| updatedAt := now; features := fs |} in
          match check fs with
          | Some message => (Throw (Error message), w2)
          | None =>
              (Return tt,
               {| trace := trace w2 ++ [Put "miles" (stringify miles)];
                  miles_kv := <["miles" := stringify miles]> (miles_kv w2) |})
          end
      end
  end.
Proof.
  unfold scheduled, bind, fetchText.
  destruct (network (length (trace w)) sheet) as [body|]; [|reflexivity].
  destruct (forRows _ 0 [] _) as [[fs|e] w2]; [|reflexivity].
  simpl. now destruct (check fs).
Qed.

Lemma answered_nil (base : nat) : answered base [].
Proof. intros i u H. now destruct i. Qed.

Lemma answered_cons_fetch (base : nat) (u : string) (evs : list Event) :
  network base u <> None -> answered (S base) evs ->
  answered base (Fetched u :: evs).
Proof.
  intros Hu He [|i] v; simpl.
  - intros [= <-]. now rewrite Nat.add_0_r.
  - intros Hi. rewrite Nat.add_succ_r. now apply (He i v).
Qed.

Lemma answered_snoc_put (base : nat) (evs : list Event) (k v : string) :
  answered base evs -> answered base (evs ++ [Put k v]).
Proof.
  intros He i u Hi.
  destruct (Nat.lt_ge_cases i (length evs)) as [Hlt|Hge].
  - rewrite nth_error_app1 in Hi by exact Hlt. now apply He.
  - rewrite nth_error_app2 in Hi by exact Hge.
    destruct (i - length evs) as [|[|j]]; simpl in Hi; discriminate.
Qed.

(** In the events [before ++ [Fetched u]], [before] being answered, an
    unanswered request can only be the last one. *)
Lemma unanswered_is_last (base : nat) (before : list Event) (u v : string)
  (i : nat) :
  answered base before ->
  nth_error (before ++ [Fetched u]) i = Some (Fetched v) ->
  network (base + i) v = None -> v = u.
Proof.
  intros Hb Hi Hn.
  destruct (Nat.lt_ge_cases i (length before)) as [Hlt|Hge].
  - rewrite nth_error_app1 in Hi by exact Hlt. now destruct (Hb i v Hi).
  - rewrite nth_error_app2 in Hi by exact Hge.
    destruct (i - length before) as [|[|j]]; simpl in Hi;
      [now injection Hi | discriminate | discriminate].
Qed.

(** The loop and the network: when the loop completes, each of its requests
    got an answer; when it throws, its last request, and that one only, was
    rejected. *)
Lemma forRows_answered (table : list Dom.Node) :
  forall n acc w,
    exists evs,
      trace (snd (forRows table n acc w)) = trace w ++ evs
      /\ match fst (forRows table n acc w) with
         | Return _ => answered (length (trace w)) evs
         | Throw e =>
             exists before u,
               e = Rejected u
               /\ evs = before ++ [Fetched u]
               /\ answered (length (trace w)) before
               /\ network (length (trace w) + length before) u = None
         end.
Proof.
  induction table as [|row rest IH]; intros n acc w.
  - exists []. simpl. rewrite app_nil_r. split; [reflexivity|].
    apply answered_nil.
  - destruct (parseRow row) as [f|] eqn:E.
    2:{ rewrite (forRows_skip _ _ _ _ _ E). apply IH. }
    destruct (Nat.lt_ge_cases n 500) as [Hn|Hn].
    + destruct (network (length (trace w)) (urlOf f)) as [text|] eqn:Hb.
      * rewrite (forRows_visit _ _ _ _ _ _ _ E Hn Hb).
        destruct (IH (S n) (acc ++ [enrich (load text) f])
                    (record (Fetched (urlOf f)) w)) as (evs & Ht & Ho).
        assert (Hlen : length (trace (record (Fetched (urlOf f)) w))
                       = S (length (trace w))).
        { simpl. rewrite length_app. simpl. lia. }
        rewrite Hlen in Ho.
        exists (Fetched (urlOf f) :: evs). split.
        { rewrite Ht. simpl. now rewrite <- app_assoc. }
        destruct (fst (forRows rest (S n) _ _)) as [fs|e].
        -- apply answered_cons_fetch; [congruence | exact Ho].
        -- destruct Ho as (before & u & -> & -> & Hans & Hnone).
           exists (Fetched (urlOf f) :: before), u.
           split; [reflexivity|]. split; [reflexivity|]. split.
           ++ apply answered_cons_fetch; [congruence | exact Hans].
           ++ simpl. rewrite Nat.add_succ_r. exact Hnone.
      * rewrite (forRows_rejected _ _ _ _ _ _ E Hn Hb).
        exists [Fetched (urlOf f)]. simpl. split; [reflexivity|].
        exists [], (urlOf f). split; [reflexivity|]. split; [reflexivity|].
        split; [apply answered_nil|]. simpl. now rewrite Nat.add_0_r.
    + rewrite (forRows_pass _ _ _ _ _ _ E Hn). apply IH.
Qed.

(** C4, as the code has it.  In every run the events are requests followed
    by at most one [put].  A request of the run that is rejected (the
    [fetch] or [text] promise: the status of a response plays no part) ends
    the run there: the run throws that rejection, makes no [put] and leaves
    the store as it was.  A run that throws, for a rejected request or for a
    check of the collection built from the sheet, makes no [put] and leaves
    the store as it was.  A run that completes had all its requests
    answered, built its collection from the sheet, had no check throw on it,
    and ends with the one [put] of that collection under ["miles"]. *)
Theorem put_only_after_checks (w : World) :
  let r := scheduled w in
  let base := length (trace w) in
  exists evs : list Event,
    trace (snd r) = trace w ++ evs
    /\ length (puts evs) <= 1
    /\ (forall i u,
          nth_error evs i = Some (Fetched u) -> network (base + i) u = None ->
          fst r = Throw (Rejected u)
          /\ puts evs = [] /\ miles_kv (snd r) = miles_kv w)
    /\ match fst r with
       | Throw e =>
           puts evs = []
           /\ miles_kv (snd r) = miles_kv w
           /\ match e with
              | Rejected u =>
                  exists before,
                    evs = before ++ [Fetched u]
                    /\ answered base before
                    /\ network (base + length before) u = None
              | Error message =>
                  exists text fs,
                    network base sheet = Some text
                    /\ fst (forRows (Dom.query (load text) rows) 0 []
                              (record (Fetched sheet) w)) = Return fs
                    /\ check fs = Some message
                    /\ answered base evs
              end
       | Return _ =>
           exists text fs urls,
             network base sheet = Some text
             /\ fst (forRows (Dom.query (load text) rows) 0 []
                       (record (Fetched sheet) w)) = Return fs
             /\ check fs = None
             /\ answered base evs
             /\ evs = map Fetched urls
                      ++ [Put "miles" (stringify {| updatedAt := now;
                                                   features := fs |})]
             /\ miles_kv (snd r) =
                <["miles" := stringify {| updatedAt := now; features := fs |}]>
                  (miles_kv w)
       end.
Proof.
  intros r base. subst r base. rewrite scheduled_run.
  destruct (network (length (trace w)) sheet) as [text|] eqn:Hsheet.
  2:{ exists [Fetched sheet]. simpl.
      split; [reflexivity|]. split; [lia|]. split.
      - intros i u Hi Hn.
        assert (u = sheet) as ->.
        { apply (unanswered_is_last (length (trace w)) [] sheet u i);
            [apply answered_nil | exact Hi | exact Hn]. }
        now repeat split.
      - split; [reflexivity|]. split; [reflexivity|].
        exists []. split; [reflexivity|]. split; [apply answered_nil|].
        simpl. now rewrite Nat.add_0_r. }
  set (w1 := record (Fetched sheet) w).
  set (table := Dom.query (load text) rows).
  assert (Hlen : length (trace w1) = S (length (trace w))).
  { simpl. rewrite length_app. simpl. lia. }
  destruct (forRows_run table 0 [] w1) as (m & _ & Ht & Hk & Ho).
  destruct (forRows_answered table 0 [] w1) as (evs1 & Ht1 & Ha).
  rewrite Hlen in Ha.
  assert (Hevs : evs1 = map Fetched (map urlOf (firstn m (parseRows table)))).
  { rewrite Ht in Ht1. now apply app_inv_head in Ht1. }
  destruct (forRows table 0 [] w1) as [[fs|e] w2] eqn:EF;
    simpl in Ht, Ht1, Hk, Ho, Ha.
  - destruct Ho as (_ & out & -> & _ & _). simpl.
    assert (Hall : answered (length (trace w)) (Fetched sheet :: evs1)).
    { apply answered_cons_fetch; [congruence | exact Ha]. }
    destruct (check out) as [message|] eqn:Hc.
    + exists (Fetched sheet :: evs1). simpl.
      rewrite Ht1, Hk. simpl. rewrite <- app_assoc.
      split; [reflexivity|].
      assert (Hp : puts evs1 = []) by (rewrite Hevs; apply puts_fetched).
      rewrite Hp. split; [simpl; lia|]. split.
      * intros i u Hi Hn. now destruct (Hall i u Hi).
      * split; [reflexivity|]. split; [reflexivity|].
        exists text, out. split; [reflexivity|].
        split; [fold table w1; now rewrite EF|].
        split; [exact Hc | exact Hall].
    + set (v := stringify {| updatedAt := now; features := out |}).
      exists ((Fetched sheet :: evs1) ++ [Put "miles" v]).
      assert (Hallp : answered (length (trace w))
                        ((Fetched sheet :: evs1) ++ [Put "miles" v])).
      { now apply answered_snoc_put. }
      simpl. rewrite Ht1, Hk. simpl. rewrite <- !app_assoc.
      split; [reflexivity|].
      assert (Hp : puts (evs1 ++ [Put "miles" v]) = [("miles", v)]).
      { rewrite puts_app, Hevs, puts_fetched. reflexivity. }
      rewrite Hp. split; [simpl; lia|]. split.
      * intros i u Hi Hn. now destruct (Hallp i u Hi).
      * exists text, out, (sheet :: map urlOf (firstn m (parseRows table))).
        split; [reflexivity|]. split; [fold table w1; now rewrite EF|].
        split; [exact Hc|]. split; [exact Hallp|]. split; [|reflexivity].
        simpl. now rewrite Hevs.
  - destruct Ha as (before & u & -> & Hb & Hans & Hnone).
    assert (Hall : answered (length (trace w)) (Fetched sheet :: before)).
    { apply answered_cons_fetch; [congruence | exact Hans]. }
    exists ((Fetched sheet :: before) ++ [Fetched u]). simpl.
    rewrite Ht1, Hk, Hb. simpl. rewrite <- !app_assoc.
    split; [reflexivity|].
    assert (Hp : puts (before ++ [Fetched u]) = []).
    { rewrite <- Hb, Hevs. apply puts_fetched. }
    rewrite Hp. split; [simpl; lia|]. split.
    + intros i u' Hi Hn.
      assert (u' = u) as ->.
      { apply (unanswered_is_last (length (trace w))
                 (Fetched sheet :: before) u u' i);
          [exact Hall | exact Hi | exact Hn]. }
      now repeat split.
    + split; [reflexivity|]. split; [reflexivity|].
      exists (Fetched sheet :: before). split; [reflexivity|].
      split; [exact Hall|]. simpl. rewrite Nat.add_succ_r. exact Hnone.
Qed.

End Run.

(** C4, as first stated, does not hold of the code.  A fetch that fails in
    the wide sense (here every detail page is answered 404) does not stop
    the run: the body of the 404 page is parsed like any other, the run
    completes and [put] is called. *)
Lemma put_despite_failed_fetches :
  let r := @scheduled Probe.missingPages Sample.start in
  @fetchFails Probe.missingPages 1
    "https://oregonshores.org/mile/mile-1-Cape Lookout/" = true
  /\ nth_error (trace (snd r)) 1 =
     Some (Fetched "https://oregonshores.org/mile/mile-1-Cape Lookout/")
  /\ fst r = Return tt
  /\ puts (trace (snd r)) = [("miles", "10")]
  /\ miles_kv (snd r) !! "miles" = Some "10".
Proof. vm_compute. repeat split. Qed.

Lemma put_only_after_checks_witness :
  fst (@scheduled (Sample.serving Sample.twelveRows Sample.barePage (Some 2))
         Sample.start)
  = Throw (Rejected "https://oregonshores.org/mile/mile-2-Cape Lookout/")
  /\ miles_kv
       (snd (@scheduled
               (Sample.serving Sample.twelveRows Sample.barePage (Some 2))
               Sample.start))
     = miles_kv Sample.start.
Proof.
  pose proof (@put_only_after_checks
                (Sample.serving Sample.twelveRows Sample.barePage (Some 2))
                Sample.start) as H.
  cbv zeta in H. destruct H as (evs & Ht & _ & Hrej & _).
  change (trace Sample.start ++ evs) with evs in Ht.
  destruct (Hrej 2 "https://oregonshores.org/mile/mile-2-Cape Lookout/")
    as (Hthrow & _ & Hkv).
  - rewrite <- Ht. vm_compute. reflexivity.
  - vm_compute. reflexivity.
  - split; [exact Hthrow | exact Hkv].
Defined.

(** ** The table rows *)

Section Rows.

Context {host : Host}.

(** C6. Row skip rules: a row gives a record exactly when [parseInt] of its
    identifier cell is a number and its name cell does not contain the
    phrase "never captured on OSCC website"; a row that gives none is passed
    over with no fetch, no record and no error, the loop going on with the
    next row in the same state; a record given carries the integer and the
    name read from the row. *)
Theorem row_skip_rules (row : Dom.Node) :
  ((exists f, parseRow row = Some f) <->
   Num.parseInt (cell row 2) <> None
   /\ ~ (exists a b,
          cell row 3 = a +:+ "never captured on OSCC website" +:+ b))
  /\ (parseRow row = None ->
      forall rest n acc w,
        forRows (row :: rest) n acc w = forRows rest n acc w)
  /\ (forall f, parseRow row = Some f ->
      Num.parseInt (cell row 2) = Some (id f)
      /\ mileNumber (properties f) = id f
      /\ name (properties f) = cell row 3).
Proof.
  split; [|split].
  - unfold parseRow, neverCaptured.
    destruct (Num.parseInt (cell row 2)) as [i|].
    + destruct (Str.includes _ (cell row 3)) eqn:Hn.
      * apply StrFacts.includes_iff in Hn. split.
        -- now intros [f Hf].
        -- now intros [_ Hc].
      * split.
        -- intros _. split; [discriminate|].
           intros Hc. apply StrFacts.includes_iff in Hc. congruence.
        -- intros _. eauto.
    + split; [now intros [f Hf] | now intros [Hc _]].
  - intros E rest n acc w. now apply forRows_skip.
  - intros f. unfold parseRow.
    destruct (Num.parseInt (cell row 2)) as [i|]; [|discriminate].
    destruct (neverCaptured _); [discriminate|]. now intros [= <-].
Qed.

(** C7. Coordinate extraction: a row that passes the two skip rules gives a
    record whatever its boundary cell holds; the record's coordinates are
    the comma-separated parts of the south-boundary cell in reverse order,
    each put through [parseFloat] on its own, so a cell [lat,lon] gives
    [[lon; lat]]; "44.1,-124.0" gives -124.0 then 44.1; and parts that are
    not numerals give [NaN], the record being kept. *)
Theorem coordinates_reversed_unchecked :
  (forall row i,
      Num.parseInt (cell row 2) = Some i ->
      neverCaptured (cell row 3) = false ->
      exists f,
        parseRow row = Some f
        /\ coordinates (geometry f) =
           map Num.parseFloat (rev (Str.split "," (cell row 5)))
        /\ forall lat lon,
             cell row 5 = lat +:+ String "," lon ->
             Str.occurs "," lat = false -> Str.occurs "," lon = false ->
             coordinates (geometry f) =
             [Num.parseFloat lon; Num.parseFloat lat])
  /\ map Num.value (map Num.parseFloat (rev (Str.split "," "44.1,-124.0"))) =
     [Some (-124 # 1)%Q; Some (441 # 10)%Q]
  /\ map Num.parseFloat (rev (Str.split "," "south,unknown")) =
     [Num.NaN; Num.NaN]
  /\ Num.parseFloat EmptyString = Num.NaN.
Proof.
  split; [|now vm_compute].
  intros row i Hi Hn. unfold parseRow. rewrite Hi, Hn.
  eexists. split; [reflexivity|]. simpl. split; [reflexivity|].
  intros lat lon -> Hlat Hlon.
  now rewrite (StrFacts.split_pair _ _ _ Hlat Hlon).
Qed.

End Rows.

Lemma row_skip_rules_witness :
  (forall rest n acc w,
      @forRows Sample.quiet (Sample.header :: rest) n acc w =
      @forRows Sample.quiet rest n acc w)
  /\ Num.parseInt (cell (Sample.mile 3) 2) <> None.
Proof.
  split.
  - apply (proj1 (proj2 (@row_skip_rules Sample.quiet Sample.header))).
    vm_compute. reflexivity.
  - apply (proj1 (@row_skip_rules Sample.quiet (Sample.mile 3))).
    eexists. vm_compute. reflexivity.
Defined.

Lemma coordinates_reversed_unchecked_witness :
  exists f,
    @parseRow Sample.quiet Sample.badCoordinates = Some f
    /\ coordinates (geometry f) = [Num.NaN; Num.NaN].
Proof.
  destruct (proj1 (@coordinates_reversed_unchecked Sample.quiet)
              Sample.badCoordinates 8%Z)
    as (f & Hf & Hc & _).
  - vm_compute. reflexivity.
  - vm_compute. reflexivity.
  - exists f. split; [exact Hf|]. rewrite Hc. vm_compute. reflexivity.
Defined.

(** ** The detail page *)

Module DetailFacts.
Import Str StrFacts.

(** What a decimal digit is not, and what [parseInt] makes of it. *)
Lemma digit_char (c : ascii) :
  is_digit c = true ->
  is_space c = false
  /\ Ascii.eqb c "-" = false /\ Ascii.eqb c "+" = false
  /\ Ascii.eqb c "x" = false /\ Ascii.eqb c "X" = false
  /\ exists d, Num.digit_of 10 c = Some d.
Proof.
  destruct c as [b0 b1 b2 b3 b4 b5 b6 b7].
  destruct b0, b1, b2, b3, b4, b5, b6, b7; intros H;
    try discriminate H; vm_compute; repeat split; eauto.
Qed.

(** A numeral always parses, to a number that is not negative. *)
Lemma parseInt_numeral (t : string) :
  t <> EmptyString -> all_digits t = true ->
  exists n, Num.parseInt t = Some n /\ (0 <= n)%Z.
Proof.
  destruct t as [|c t]; [congruence|]. intros _ H. simpl in H.
  apply andb_prop in H as [Hc Ht].
  destruct (digit_char c Hc) as (Hs & Hm & Hp & _ & _ & d & Hd).
  unfold Num.parseInt. simpl. rewrite Hs. simpl. rewrite Hm, Hp.
  assert (Num.take_radix (String c t) = (10%N, String c t)) as ->.
  { destruct t as [|c1 t]; [reflexivity|]. simpl in Ht |- *.
    apply andb_prop in Ht as [Hc1 _].
    destruct (digit_char c1 Hc1) as (_ & _ & _ & -> & -> & _).
    now rewrite andb_false_r. }
  simpl. rewrite Hd. eexists. split; [reflexivity|]. lia.
Qed.

Lemma eqb_empty (x : string) :
  String.eqb x EmptyString = false <-> x <> EmptyString.
Proof. apply String.eqb_neq. Qed.

(** The pattern tried at one position: what a match looks like. *)
Lemma showing_here_sound (s total : string) :
  showing_here s = Some total ->
  exists x after,
    s = "Showing " +:+ x +:+ " of " +:+ total +:+ " reports" +:+ after
    /\ x <> EmptyString /\ all_digits x = true
    /\ total <> EmptyString /\ all_digits total = true.
Proof.
  unfold showing_here.
  destruct (strip "Showing " s) as [r1|] eqn:E1; [|discriminate].
  destruct (span_digits_spec r1) as (S1 & D1 & _).
  destruct (span_digits r1) as [x r2]. simpl in S1, D1.
  destruct (String.eqb x EmptyString) eqn:X; [discriminate|].
  destruct (strip " of " r2) as [r3|] eqn:E2; [|discriminate].
  destruct (span_digits_spec r3) as (S3 & D3 & _).
  destruct (span_digits r3) as [t r4]. simpl in S3, D3.
  destruct (String.eqb t EmptyString) eqn:T; [discriminate|].
  destruct (strip " reports" r4) as [after|] eqn:E3; [|discriminate].
  intros [= <-]. exists x, after.
  apply strip_Some in E1, E2, E3. apply eqb_empty in X, T.
  subst. repeat split; assumption.
Qed.

(** The pattern tried where a match starts: the match is found. *)
Lemma showing_here_complete (x total after : string) :
  x <> EmptyString -> all_digits x = true ->
  total <> EmptyString -> all_digits total = true ->
  showing_here
    ("Showing " +:+ x +:+ " of " +:+ total +:+ " reports" +:+ after)
  = Some total.
Proof.
  intros X DX T DT. unfold showing_here.
  rewrite strip_app.
  rewrite (span_digits_app x (" of " +:+ total +:+ " reports" +:+ after)
             DX eq_refl).
  apply eqb_empty in X, T. rewrite X, strip_app.
  rewrite (span_digits_app total (" reports" +:+ after) DT eq_refl), T.
  now rewrite strip_app.
Qed.

Lemma exec_showing_sound (s total : string) :
  exec_showing s = Some total -> shows s total.
Proof.
  induction s as [|c s IH].
  - intros H. vm_compute in H. discriminate.
  - simpl. destruct (showing_here (String c s)) as [t|] eqn:E.
    + intros [= ->]. destruct (showing_here_sound _ _ E) as (x & after & H).
      now exists EmptyString, x, after.
    + intros H. destruct (IH H) as (before & x & after & -> & Hx).
      now exists (String c before), x, after.
Qed.

Lemma exec_showing_here (s total : string) :
  showing_here s = Some total -> exec_showing s = Some total.
Proof.
  intros H. destruct s; [vm_compute in H; discriminate|].
  simpl. now rewrite H.
Qed.

Lemma exec_showing_cons (c : ascii) (s : string) :
  exec_showing (String c s) =
  match showing_here (String c s) with
  | Some total => Some total
  | None => exec_showing s
  end.
Proof. reflexivity. Qed.

Lemma exec_showing_complete (s total : string) :
  shows s total -> exists total', exec_showing s = Some total'.
Proof.
  intros (before & x & after & -> & X & DX & T & DT).
  induction before as [|c before IH].
  - exists total. apply exec_showing_here.
    now apply showing_here_complete.
  - change (String c before +:+ ?r) with (String c (before +:+ r)).
    rewrite exec_showing_cons.
    destruct (showing_here _) as [t|]; [now exists t | exact IH].
Qed.

End DetailFacts.

Section Detail.

Context {host : Host}.

(** C8. Image fallback chain: when the [src] of the mile image is a
    non-empty string, that is the image address; otherwise the report images
    are gone through in document order, those whose [alt] contains
    "decorative" are passed over, and the [src] of the first other one is the
    image address when it is a non-empty string; otherwise, and when every
    report image is decorative, there is no image address.  A record parsed
    from a row and enriched from the page gets exactly that [imageUrl]. *)
Theorem image_fallback_chain (page : Dom.Document) :
  let primary := Dom.attr "src" (Dom.query page mileImage) in
  let candidates := Dom.query page reportImages in
  (truthy primary = true -> pickImage page = primary)
  /\ (truthy primary = false ->
      forall skipped e rest,
        candidates = skipped ++ e :: rest ->
        forallb decorative skipped = true -> decorative e = false ->
        pickImage page =
        (if truthy (Dom.attr "src" [e]) then Dom.attr "src" [e] else None))
  /\ (truthy primary = false ->
      forallb decorative candidates = true -> pickImage page = None)
  /\ (forall row f,
        parseRow row = Some f ->
        imageUrl (properties (enrich page f)) = pickImage page).
Proof.
  intros primary candidates. subst primary candidates.
  unfold pickImage. rewrite DomFacts.query_reportImage.
  split; [|split; [|split]].
  - now intros ->.
  - intros -> skipped e rest -> Hs He.
    now rewrite (DomFacts.filter_first decorative _ _ _ Hs He).
  - intros -> Hall.
    now rewrite (DomFacts.filter_none decorative _ Hall).
  - intros row f Hf. rewrite imageUrl_enrich.
    apply parseRow_unenriched in Hf. rewrite <- Hf. simpl.
    unfold pickImage. rewrite DomFacts.query_reportImage.
    now destruct (truthy _); [destruct (Dom.attr _ _) | destruct (truthy _);
      [destruct (Dom.attr _ _)|]].
Qed.

(** C9. Report-count extraction: the count is [parseInt] of the group of
    the leftmost match of [Showing \d+ of (\d+) reports] in the text of the
    results-meta paragraphs, and is absent when there is no match; a match is
    an occurrence of "Showing x of total reports" with two numerals, a text
    with such an occurrence always gives a count, a text with none gives
    none, and the count is never negative; "Showing 3 of 47 reports"
    gives 47.  Enriching a record from the page sets its [numReports] to
    that count when there is one and leaves it as it was otherwise; on a
    record parsed from a row, which has none, [numReports] is therefore the
    count, or absent. *)
Theorem report_count_extraction (page : Dom.Document) :
  let reports := Dom.text (Dom.query page numResults) in
  countReports page =
    match exec_showing reports with
    | Some total => Num.parseInt total
    | None => None
    end
  /\ (forall total,
        exec_showing reports = Some total ->
        shows reports total
        /\ exists n, Num.parseInt total = Some n /\ (0 <= n)%Z
                     /\ countReports page = Some n)
  /\ (forall total, shows reports total ->
        exists n, countReports page = Some n)
  /\ ((forall total, ~ shows reports total) -> countReports page = None)
  /\ (reports = "Showing 3 of 47 reports" -> countReports page = Some 47%Z)
  /\ (forall feature,
        numReports (properties (enrich page feature)) =
        match countReports page with
        | Some n => Some n
        | None => numReports (properties feature)
        end)
  /\ (forall row f,
        parseRow row = Some f ->
        numReports (properties (enrich page f)) =
        match exec_showing reports with
        | Some total => Num.parseInt total
        | None => None
        end)
  /\ (forall row f,
        parseRow row = Some f ->
        (forall total, ~ shows reports total) ->
        numReports (properties (enrich page f)) = None).
Proof.
  intros reports.
  assert (Hsome : forall total, exec_showing reports = Some total ->
            shows reports total
            /\ exists n, Num.parseInt total = Some n /\ (0 <= n)%Z
                 /\ truthy (Some total) = true).
  { intros total E. apply DetailFacts.exec_showing_sound in E as Hs.
    split; [exact Hs|].
    destruct Hs as (_ & _ & _ & _ & _ & _ & T & DT).
    destruct (DetailFacts.parseInt_numeral _ T DT) as (n & Hn & Hpos).
    exists n. repeat split; try assumption. now apply truthy_Some. }
  assert (Hcount : countReports page =
                   match exec_showing reports with
                   | Some total => Num.parseInt total
                   | None => None
                   end).
  { unfold countReports. fold reports.
    destruct (exec_showing reports) as [total|] eqn:E; [|reflexivity].
    destruct (Hsome _ eq_refl) as (_ & n & Hn & _ & ->).
    now rewrite Hn. }
  assert (Hnone : (forall total, ~ shows reports total) ->
                  countReports page = None).
  { intros Hno. rewrite Hcount.
    destruct (exec_showing reports) as [total|] eqn:E; [|reflexivity].
    destruct (Hno total). now apply DetailFacts.exec_showing_sound. }
  assert (Hparsed : forall row f, parseRow row = Some f ->
            numReports (properties (enrich page f)) = countReports page).
  { intros row f Hf. rewrite numReports_enrich.
    apply parseRow_unenriched in Hf. rewrite <- Hf. simpl.
    now destruct (countReports page). }
  split; [exact Hcount|].
  split; [|split; [|split; [|split; [|split; [|split]]]]].
  - intros total E. destruct (Hsome _ E) as (Hs & n & Hn & Hpos & Ht).
    split; [exact Hs|]. exists n. rewrite Hcount, E. now repeat split.
  - intros total Hs.
    destruct (DetailFacts.exec_showing_complete _ _ Hs) as (t & E).
    destruct (Hsome _ E) as (_ & n & Hn & _ & Ht).
    exists n. now rewrite Hcount, E.
  - exact Hnone.
  - intros Hr. rewrite Hcount, Hr. reflexivity.
  - intros feature. apply numReports_enrich.
  - intros row f Hf. rewrite (Hparsed _ _ Hf). exact Hcount.
  - intros row f Hf Hno. rewrite (Hparsed _ _ Hf). now apply Hnone.
Qed.

Lemma pickImage_not_empty (page : Dom.Document) :
  pickImage page <> Some EmptyString.
Proof.
  intros H. apply pickImage_truthy in H. vm_compute in H. discriminate.
Qed.

Lemma comes_from_images (ps out : list MileFeature) :
  Forall2 comes_from ps out ->
  Forall (fun p => imageUrl (properties p) = None
                   /\ numReports (properties p) = None) ps ->
  Forall (fun f => imageUrl (properties f) <> Some EmptyString) out.
Proof.
  induction 1 as [|p f ps out Hpf _ IH]; intros Hb; [constructor|].
  inversion Hb as [|? ? [Hp _] Hps]; subst.
  constructor; [|now apply IH].
  destruct Hpf as [->|[body ->]]; [now rewrite Hp|].
  rewrite imageUrl_enrich, Hp.
  destruct (pickImage (load body)) as [u|] eqn:Eu; [|discriminate].
  rewrite <- Eu. apply pickImage_not_empty.
Qed.

(** C10. Empty [src]: an empty [src] on the mile image gives what an absent
    one gives, the outcome of the report-image step; an empty [src] on the
    report image taken gives no image address; so the image address of a
    page, and the [imageUrl] of every feature a completed loop returns, is
    never the empty string. *)
Theorem empty_src_is_absent :
  (forall page,
      let fallback := Dom.attr "src" (Dom.first (Dom.query page reportImage)) in
      (Dom.attr "src" (Dom.query page mileImage) = Some EmptyString
       \/ Dom.attr "src" (Dom.query page mileImage) = None ->
       pickImage page = (if truthy fallback then fallback else None))
      /\ (truthy (Dom.attr "src" (Dom.query page mileImage)) = false ->
          fallback = Some EmptyString -> pickImage page = None)
      /\ pickImage page <> Some EmptyString)
  /\ (forall table w fs,
        fst (forRows table 0 [] w) = Return fs ->
        Forall (fun f => imageUrl (properties f) <> Some EmptyString) fs).
Proof.
  split.
  - intros page fallback. subst fallback. split; [|split].
    + unfold pickImage. now intros [-> | ->].
    + unfold pickImage. now intros -> ->.
    + apply pickImage_not_empty.
  - intros table w fs E.
    destruct (forRows_run table 0 [] w) as (m & _ & _ & _ & Ho).
    rewrite E in Ho. destruct Ho as (_ & out & -> & HF & _). simpl.
    apply (comes_from_images _ _ HF), parseRows_bare.
Qed.

End Detail.

Lemma image_fallback_chain_witness :
  pickImage Sample.reportPage = Some "report1.jpg".
Proof.
  exact (proj1 (proj2 (@image_fallback_chain Sample.quiet Sample.reportPage))
           eq_refl
           [Dom.Element "img" [("class", "mile-report-result-image");
                               ("alt", "decorative placeholder");
                               ("src", "blank.png")] []]
           (Dom.Element "img" [("class", "mile-report-result-image");
                               ("alt", "the beach"); ("src", "report1.jpg")] [])
           [Dom.Element "img" [("class", "mile-report-result-image");
                               ("src", "report2.jpg")] []]
           eq_refl eq_refl eq_refl).
Defined.

Lemma report_count_extraction_witness :
  countReports Probe.splitPage = Some 47%Z
  /\ exists f,
       @parseRow Sample.quiet (Sample.mile 1) = Some f
       /\ numReports (properties (enrich Probe.splitPage f)) = Some 47%Z.
Proof.
  split.
  - apply (proj1 (proj2 (proj2 (proj2 (proj2
             (@report_count_extraction Sample.quiet Probe.splitPage)))))).
    vm_compute. reflexivity.
  - eexists. split; [vm_compute; reflexivity|].
    etransitivity.
    + apply (proj1 (proj2 (proj2 (proj2 (proj2 (proj2 (proj2
               (@report_count_extraction Sample.quiet Probe.splitPage)))))))
               (Sample.mile 1)).
      vm_compute. reflexivity.
    + vm_compute. reflexivity.
Defined.

Lemma empty_src_is_absent_witness :
  pickImage Sample.reportPage = Some "report1.jpg"
  /\ exists fs,
       fst (@forRows (Sample.serving [] Sample.reportPage None)
              (Sample.miles 2) 0 [] Sample.start) = Return fs
       /\ Forall (fun f => imageUrl (properties f) <> Some EmptyString) fs.
Proof.
  split.
  - apply (proj1 (proj1 (@empty_src_is_absent Sample.quiet)
                    Sample.reportPage)).
    left. vm_compute. reflexivity.
  - eexists. split; [vm_compute; reflexivity|].
    apply (proj2 (@empty_src_is_absent
                    (Sample.serving [] Sample.reportPage None))
             (Sample.miles 2) Sample.start).
    vm_compute. reflexivity.
Defined.

(** ** The sanity checks *)

Section Checks.

(** [p] holds of all of [l] exactly when [find] meets no element that
    lacks it. *)
Lemma find_lacking {A} (p : A -> bool) (l : list A) :
  forallb p l =
  match List.find (fun x => negb (p x)) l with
  | None => true
  | Some _ => false
  end.
Proof.
  induction l as [|x l IH]; simpl; [reflexivity|].
  now destruct (p x).
Qed.

(** The three messages are different ones. *)
Lemma messages_differ (n : nat) :
  noImages <> noReports /\ onlyFound n <> noImages /\ onlyFound n <> noReports.
Proof. unfold noImages, noReports, onlyFound. simpl. now repeat split. Qed.

Ltac clash :=
  let H := fresh in
  intros H; unfold noImages, noReports, onlyFound in H; simpl in H;
  discriminate H.

(** The first check throws exactly when no feature lacks an image address:
    when every feature has one. *)
Lemma check_noImages (fs : list MileFeature) :
  check fs = Some noImages <->
  forallb (fun f => truthy (imageUrl (properties f))) fs = true.
Proof.
  unfold check. rewrite !find_lacking. cbv beta.
  destruct (List.find (fun x => negb (truthy (imageUrl (properties x)))) fs).
  - split; [|discriminate].
    destruct (List.find _ fs); [|clash].
    destruct (length fs <? 10)%nat; clash.
  - now split.
Qed.

(** The second check throws exactly when some feature lacks an image
    address and none lacks a report count. *)
Lemma check_noReports (fs : list MileFeature) :
  check fs = Some noReports <->
  forallb (fun f => truthy (imageUrl (properties f))) fs = false
  /\ forallb (fun f => truthy_number (numReports (properties f))) fs = true.
Proof.
  unfold check. rewrite !find_lacking. cbv beta.
  destruct (List.find (fun x => negb (truthy (imageUrl (properties x)))) fs).
  - destruct (List.find _ fs).
    + split; [|now intros [_ ?]].
      destruct (length fs <? 10)%nat; clash.
    + now split.
  - split; [clash | now intros [? _]].
Qed.

(** Nothing is thrown exactly when some feature lacks an image address,
    some feature lacks a report count, and there are ten features or more. *)
Lemma check_passes (fs : list MileFeature) :
  check fs = None <->
  forallb (fun f => truthy (imageUrl (properties f))) fs = false
  /\ forallb (fun f => truthy_number (numReports (properties f))) fs = false
  /\ 10 <= length fs.
Proof.
  unfold check. rewrite !find_lacking. cbv beta.
  destruct (List.find (fun x => negb (truthy (imageUrl (properties x)))) fs).
  - destruct (List.find _ fs).
    + destruct (Nat.ltb_spec (length fs) 10).
      * split; [discriminate | intros (_ & _ & ?); lia].
      * split; [now repeat split | reflexivity].
    + split; [discriminate | now intros (_ & ? & _)].
  - split; [discriminate | now intros (? & _)].
Qed.

(** Fewer than ten features are always refused, by one check or another. *)
Lemma check_few (fs : list MileFeature) :
  length fs < 10 -> check fs <> None.
Proof. intros H E. apply check_passes in E. lia. Qed.

(** C1 (the code departs from the claim). The image check is the wrong way
    round: ten features of which none has an image address pass [check], and
    ten features that all have one are refused with the "No images" message.
    Run on a sheet of ten miles whose detail pages hold nothing, [scheduled]
    completes and overwrites the stored collection. *)
Theorem image_gate_inverted :
  check (repeat Sample.bare 10) = None
  /\ check (repeat Sample.pictured 10) = Some noImages
  /\ (let r := @scheduled (Sample.serving (Sample.miles 10) Sample.barePage None)
                 Sample.start in
      fst r = Return tt
      /\ puts (trace (snd r)) = [("miles", "10")]
      /\ miles_kv (snd r) !! "miles" = Some "10").
Proof. vm_compute. repeat split. Qed.

(** C2 (the code departs from the claim). The report check is the wrong way
    round: ten features of which none has a report count (one of them
    lacking an image) pass [check], and ten features that all have a report
    count (one of them lacking an image) are refused with the "No reports"
    message.  Run on a sheet of ten miles whose detail pages all show
    "Showing 3 of 47 reports" and no image, [scheduled] throws that message
    and leaves the store alone. *)
Theorem report_gate_inverted :
  check (Sample.bare :: repeat Sample.pictured 9) = None
  /\ check (Sample.counted :: repeat Sample.full 9) = Some noReports
  /\ (let r := @scheduled (Sample.serving (Sample.miles 10) Sample.countPage None)
                 Sample.start in
      fst r = Throw (Error noReports)
      /\ puts (trace (snd r)) = []
      /\ miles_kv (snd r) !! "miles" = Some "old").
Proof. vm_compute. repeat split. Qed.

(** C3 (the code departs from the claim). The verdict does not follow the
    three thresholds: ten features that each have an image address and a
    report count are refused, and ten features with neither are accepted.
    On the end-to-end scenario (twelve rows, two of them headers, every
    detail page with an image and a report count) [scheduled] throws the
    "No images" message and nothing is stored. *)
Theorem verdict_against_thresholds :
  check (repeat Sample.full 10) = Some noImages
  /\ check (repeat Sample.bare 10) = None
  /\ (let r := @scheduled (Sample.serving Sample.twelveRows Sample.fullPage None)
                 Sample.start in
      fst r = Throw (Error noImages)
      /\ length (trace (snd r)) = 11
      /\ puts (trace (snd r)) = []
      /\ miles_kv (snd r) !! "miles" = Some "old").
Proof. vm_compute. repeat split. Qed.

End Checks.

(** ** The model on small inputs *)

Module Trials.

Example parseInt_prefix : Num.parseInt " 12abc" = Some 12%Z.
Proof. reflexivity. Qed.

Example parseInt_header : Num.parseInt "Mile" = None.
Proof. reflexivity. Qed.

Example parseInt_empty : Num.parseInt EmptyString = None.
Proof. reflexivity. Qed.

Example parseInt_hex : Num.parseInt "-0x1f" = Some (-31)%Z.
Proof. reflexivity. Qed.

Example parseFloat_fraction : Num.parseFloat ".5e-2" = Num.Finite false 5 (-3).
Proof. reflexivity. Qed.

Example parseFloat_dot : Num.parseFloat "." = Num.NaN.
Proof. reflexivity. Qed.

Example parseFloat_half_exponent : Num.parseFloat "1e" = Num.Finite false 1 0.
Proof. reflexivity. Qed.

Example split_trailing : Str.split "," "a,,b," = ["a"; ""; "b"; ""].
Proof. reflexivity. Qed.

Example toString_zero : Num.toString 0 = "0".
Proof. reflexivity. Qed.

Example exec_leftmost :
  exec_showing "Showing 1 of 2 reports, Showing 3 of 47 reports" = Some "2".
Proof. reflexivity. Qed.

Example exec_partial : exec_showing "Showing 3 of many reports" = None.
Proof. reflexivity. Qed.

(** The rows of a sheet are found below [table tbody]; the header and the
    placeholder give no record. *)
Example parseRows_sample :
  map id
    (@parseRows Sample.quiet
       (Dom.query
          (Sample.sheetOf (Sample.header :: Sample.placeholder :: Sample.miles 3))
          rows))
  = [1%Z; 2%Z; 3%Z].
Proof. vm_compute. reflexivity. Qed.

(** 503 miles: 500 detail pages are requested and 503 features returned. *)
Example cap_on_503_miles :
  let r := @forRows (Sample.serving [] Sample.fullPage None)
             (Sample.miles 503) 0 [] Sample.start in
  length (trace (snd r)) = 500
  /\ match fst r with
     | Return fs =>
         length fs = 503
         /\ map (fun f => imageUrl (properties f)) (skipn 499 fs)
            = [Some "mile.jpg"; None; None; None]
     | Throw _ => False
     end.
Proof. vm_compute. repeat split. Qed.

(** The third request of a run is rejected: the run throws, makes no
    [put], and the stored collection stays. *)
Example rejected_detail_page :
  let r := @scheduled
             (Sample.serving Sample.twelveRows Sample.barePage (Some 2))
             Sample.start in
  fst r = Throw (Rejected "https://oregonshores.org/mile/mile-2-Cape Lookout/")
  /\ puts (trace (snd r)) = []
  /\ miles_kv (snd r) !! "miles" = Some "old".
Proof. vm_compute. repeat split. Qed.

End Trials.

(** ** The read endpoint and the runs it follows *)

Section Endpoint.

Context {host : Host}.

Lemma forRows_nothing (table : list Dom.Node) :
  parseRows table = [] ->
  forall n acc w, forRows table n acc w = (Return acc, w).
Proof.
  induction table as [|row rest IH]; intros E n acc w; [reflexivity|].
  simpl in E. destruct (parseRow row) as [f|] eqn:Er; [discriminate|].
  rewrite (forRows_skip _ _ _ _ _ Er). now apply IH.
Qed.

(** A run either throws and leaves the store, or went through the sheet,
    the loop and the checks and wrote the collection. *)
Lemma scheduled_cases (w : World) :
  (exists e, fst (scheduled w) = Throw e
             /\ miles_kv (snd (scheduled w)) = miles_kv w)
  \/ (exists text fs,
        network (length (trace w)) sheet = Some text
        /\ fst (forRows (Dom.query (load text) rows) 0 []
                  (record (Fetched sheet) w)) = Return fs
        /\ check fs = None
        /\ fst (scheduled w) = Return tt
        /\ miles_kv (snd (scheduled w)) =
           <["miles" := stringify {| updatedAt := now; features := fs |}]>
             (miles_kv w)).
Proof.
  rewrite scheduled_run.
  destruct (network (length (trace w)) sheet) as [text|].
  2:{ left. exists (Rejected sheet). now split. }
  destruct (forRows_run (Dom.query (load text) rows) 0 []
              (record (Fetched sheet) w)) as (m & _ & _ & Hk & _).
  destruct (forRows _ 0 [] _) as [[fs|e] w2] eqn:EF; simpl in Hk.
  - simpl. destruct (check fs) as [message|] eqn:Hc.
    + left. exists (Error message). now split.
    + right. exists text, fs. simpl. rewrite EF, Hk. now repeat split.
  - left. exists e. now split.
Qed.

Lemma fetch_store (request : Request) (w1 w2 : World) :
  miles_kv w1 = miles_kv w2 ->
  fst (fetch request w1) = fst (fetch request w2).
Proof.
  intros H. unfold fetch, bind, get, ret.
  destruct (negb (String.eqb (method request) "GET")); [reflexivity|].
  rewrite H. now destruct (negb (truthy (miles_kv w2 !! "miles"))).
Qed.

Lemma fetch_GET (request : Request) (w : World) :
  method request = "GET" ->
  fst (fetch request w) =
  Return match miles_kv w !! "miles" with
         | Some v => if String.eqb v EmptyString then notFound else served v
         | None => notFound
         end.
Proof.
  intros Hm. unfold fetch, bind, get, ret. rewrite Hm. simpl.
  destruct (miles_kv w !! "miles") as [v|]; [|reflexivity].
  simpl. now destruct (String.eqb v EmptyString).
Qed.

(** X1. The read handler only reads: whatever the request and the world, it
    returns a response without throwing, makes no request, writes nothing
    and leaves the store as it was. *)
Theorem fetch_only_reads (request : Request) (w : World) :
  snd (fetch request w) = w
  /\ exists response, fst (fetch request w) = Return response.
Proof.
  unfold fetch, bind, get, ret.
  destruct (negb (String.eqb (method request) "GET")); [eauto|].
  destruct (negb (truthy (miles_kv w !! "miles"))); eauto.
Qed.

(** X2. The answer of the read handler: 403 exactly for a method other than
    GET; 404 exactly for a GET when nothing, or the empty string, is stored
    under "miles"; 200 exactly for a GET when a non-empty string is stored,
    and then the body is that string, unchanged, with the five fixed
    headers. *)
Theorem fetch_verdict (request : Request) (w : World) :
  exists response,
    fst (fetch request w) = Return response
    /\ (status response = 403 <-> method request <> "GET")
    /\ (status response = 404 <->
        method request = "GET"
        /\ (miles_kv w !! "miles" = None
            \/ miles_kv w !! "miles" = Some EmptyString))
    /\ (status response = 200 <->
        method request = "GET"
        /\ exists v, miles_kv w !! "miles" = Some v /\ v <> EmptyString)
    /\ (forall v,
          method request = "GET" -> miles_kv w !! "miles" = Some v ->
          v <> EmptyString -> response = served v).
Proof.
  unfold fetch, bind, get, ret.
  destruct (String.eqb_spec (method request) "GET") as [Hm|Hm]; simpl.
  - destruct (miles_kv w !! "miles") as [v|] eqn:Hv; simpl.
    + destruct (String.eqb_spec v EmptyString) as [->|Hne]; simpl.
      * exists notFound. split; [reflexivity|]. simpl.
        split; [split; [discriminate | congruence]|].
        split; [split; [now auto | reflexivity]|].
        split; [split; [discriminate|]|].
        -- intros (_ & v & [= <-] & Hv'). congruence.
        -- intros v _ [= <-] Hv'. congruence.
      * exists (served v). split; [reflexivity|]. simpl.
        split; [split; [discriminate | congruence]|].
        split; [split; [discriminate|]|].
        -- intros (_ & [H | [= H]]); [discriminate | congruence].
        -- split; [split; [now eauto | reflexivity]|].
           now intros v' _ [= <-] _.
    + exists notFound. split; [reflexivity|]. simpl.
      split; [split; [discriminate | congruence]|].
      split; [split; [now auto | reflexivity]|].
      split; [split; [discriminate|]|].
      * intros (_ & v & [=] & _).
      * intros v _ [=].
  - exists onlyGet. split; [reflexivity|]. simpl.
    split; [split; [now auto | reflexivity]|].
    split; [split; [discriminate | now intros [? _]]|].
    split; [split; [discriminate | now intros [? _]]|].
    intros v H. congruence.
Qed.

(** X3. A completed run, then a GET: the handler answers 200 with, as body,
    the serialisation of the collection the run built (the features the
    loop returned for the rows of the sheet it fetched, stamped with the
    clock, no check having thrown on them), provided that serialisation is
    not the empty string; were it empty, the answer would be 404. *)
Theorem fetch_after_completed_run (w : World) (request : Request) :
  fst (scheduled w) = Return tt -> method request = "GET" ->
  exists text fs,
    network (length (trace w)) sheet = Some text
    /\ fst (forRows (Dom.query (load text) rows) 0 []
              (record (Fetched sheet) w)) = Return fs
    /\ map unenriched fs = parseRows (Dom.query (load text) rows)
    /\ check fs = None
    /\ let v := stringify {| updatedAt := now; features := fs |} in
       (v <> EmptyString ->
        fst (fetch request (snd (scheduled w))) = Return (served v))
       /\ (v = EmptyString ->
           fst (fetch request (snd (scheduled w))) = Return notFound).
Proof.
  intros Hrun Hm.
  destruct (scheduled_cases w)
    as [(e & He & _) | (text & fs & Hn & Hf & Hc & _ & Hk)].
  { rewrite Hrun in He. discriminate. }
  exists text, fs. split; [exact Hn|]. split; [exact Hf|]. split.
  { destruct (forRows_run (Dom.query (load text) rows) 0 []
                (record (Fetched sheet) w)) as (m & _ & _ & _ & Ho).
    rewrite Hf in Ho. destruct Ho as (_ & out & -> & HF & _). simpl.
    rewrite (comes_from_unenriched _ _ HF). apply parseRows_unenriched. }
  split; [exact Hc|]. cbv zeta.
  rewrite (fetch_GET _ _ Hm), Hk, lookup_insert_eq.
  split.
  - intros Hv. apply String.eqb_neq in Hv. now rewrite Hv.
  - intros ->. reflexivity.
Qed.

(** X4. A run that throws, then any request: the handler answers what it
    would have answered before the run. *)
Theorem fetch_after_failed_run (w : World) (request : Request) (e : Failure) :
  fst (scheduled w) = Throw e ->
  fst (fetch request (snd (scheduled w))) = fst (fetch request w).
Proof.
  intros Hrun. apply fetch_store.
  destruct (scheduled_cases w) as [(e' & _ & Hk) | (text & fs & _ & _ & _ & Hr & _)].
  - exact Hk.
  - rewrite Hrun in Hr. discriminate.
Qed.

(** X5. A run writes under "miles" only: every other key of the namespace
    holds after the run what it held before, whether the run completes or
    throws. *)
Theorem scheduled_other_keys (w : World) (key : string) :
  key <> "miles" ->
  miles_kv (snd (scheduled w)) !! key = miles_kv w !! key.
Proof.
  intros Hkey.
  destruct (scheduled_cases w) as [(e & _ & Hk) | (text & fs & _ & _ & _ & _ & Hk)];
    rewrite Hk; [reflexivity|].
  apply lookup_insert_ne. congruence.
Qed.

End Endpoint.

(** ** More on the loop, the checks and the run *)

Section More.

Context {host : Host}.

Lemma urlOf_enrich (page : Dom.Document) (f : MileFeature) :
  urlOf (enrich page f) = urlOf f.
Proof.
  unfold enrich, urlOf. now destruct (pickImage page), (countReports page).
Qed.

Lemma comes_from_urls (ps out : list MileFeature) :
  Forall2 comes_from ps out -> map urlOf out = map urlOf ps.
Proof.
  induction 1 as [|p f ps out [->|[text ->]] _ IH]; simpl;
    [reflexivity | now rewrite IH |].
  now rewrite urlOf_enrich, IH.
Qed.

Lemma comes_from_numbers (ps out : list MileFeature) :
  Forall2 comes_from ps out ->
  Forall (fun p => mileNumber (properties p) = id p) ps ->
  Forall (fun f => mileNumber (properties f) = id f) out.
Proof.
  induction 1 as [|p f ps out Hpf _ IH]; intros Hb; [constructor|].
  inversion Hb as [|? ? Hp Hps]; subst.
  constructor; [|now apply IH].
  destruct Hpf as [->|[text ->]]; [exact Hp|].
  unfold enrich. now destruct (pickImage _), (countReports _).
Qed.

Lemma parseRows_numbers (table : list Dom.Node) :
  Forall (fun p => mileNumber (properties p) = id p) (parseRows table).
Proof.
  induction table as [|row rest IH]; simpl; [constructor|].
  destruct (parseRow row) as [f|] eqn:E; [|exact IH].
  constructor; [|exact IH]. revert E. unfold parseRow.
  destruct (Num.parseInt _); [|discriminate].
  destruct (neverCaptured _); [discriminate|]. now intros [= <-].
Qed.

Lemma countReports_sign (page : Dom.Document) (n : Z) :
  countReports page = Some n -> (0 <= n)%Z.
Proof.
  unfold countReports.
  destruct (exec_showing _) as [total|] eqn:E; [|discriminate].
  apply DetailFacts.exec_showing_sound in E
    as (_ & _ & _ & _ & _ & _ & T & DT).
  destruct (DetailFacts.parseInt_numeral _ T DT) as (k & -> & Hk).
  destruct (truthy (Some total)); [|discriminate].
  simpl. now intros [= <-].
Qed.

Lemma comes_from_counts (ps out : list MileFeature) :
  Forall2 comes_from ps out ->
  Forall (fun p => imageUrl (properties p) = None
                   /\ numReports (properties p) = None) ps ->
  Forall (fun f => forall n, numReports (properties f) = Some n -> (0 <= n)%Z)
    out.
Proof.
  induction 1 as [|p f ps out Hpf _ IH]; intros Hb; [constructor|].
  inversion Hb as [|? ? [_ Hp] Hps]; subst.
  constructor; [|now apply IH].
  destruct Hpf as [->|[text ->]]; intros n.
  - rewrite Hp. discriminate.
  - rewrite numReports_enrich, Hp.
    destruct (countReports (load text)) as [k|] eqn:Ek; [|discriminate].
    intros [= <-]. now apply (countReports_sign _ _ Ek).
Qed.

Lemma length_split (sep : ascii) (s : string) :
  length (Str.split sep s) = S (count_char sep s).
Proof.
  induction s as [|c s IH]; simpl; [reflexivity|].
  destruct (Ascii.eqb c sep); simpl; [now rewrite IH|].
  destruct (Str.split sep s); simpl in *; [discriminate | exact IH].
Qed.

Lemma forallb_false_In {A} (p : A -> bool) (l : list A) :
  forallb p l = false -> exists x, In x l /\ p x = false.
Proof.
  induction l as [|x l IH]; simpl; [discriminate|].
  destruct (p x) eqn:Hx; simpl.
  - intros H. destruct (IH H) as (y & Hy & Hp). exists y. auto.
  - intros _. exists x. auto.
Qed.

(** X6. The requests of a run: every run first requests the sheet; when
    that request is rejected the run throws there and does nothing else;
    otherwise it requests the pages of the first parsed records, at most 500
    of them and in row order, and after them writes to the store once or not
    at all.  A run makes at most 501 requests. *)
Theorem scheduled_requests (w : World) :
  exists rest,
    trace (snd (scheduled w)) = trace w ++ Fetched sheet :: rest
    /\ length rest <= 501
    /\ match network (length (trace w)) sheet with
       | None => rest = [] /\ fst (scheduled w) = Throw (Rejected sheet)
       | Some text =>
           exists m tail,
             m <= 500
             /\ rest = map Fetched
                        (map urlOf
                           (firstn m (parseRows (Dom.query (load text) rows))))
                      ++ tail
             /\ (tail = [] \/ exists v, tail = [Put "miles" v])
       end.
Proof.
  rewrite scheduled_run.
  destruct (network (length (trace w)) sheet) as [text|].
  2:{ exists []. simpl. split; [reflexivity|]. split; [lia|]. now split. }
  set (table := Dom.query (load text) rows).
  destruct (forRows_run table 0 [] (record (Fetched sheet) w))
    as (m & Hm & Ht & _ & _).
  set (pages := map Fetched (map urlOf (firstn m (parseRows table)))) in *.
  assert (Hlen : length pages <= 500).
  { unfold pages. rewrite !length_map, length_firstn. lia. }
  destruct (forRows table 0 [] _) as [[fs|e] w2]; simpl in Ht.
  - simpl. destruct (check fs) as [message|].
    + exists pages. simpl. rewrite Ht. simpl. rewrite <- app_assoc.
      split; [reflexivity|]. split; [lia|].
      exists m, []. rewrite app_nil_r. split; [lia|]. now auto.
    + exists (pages ++ [Put "miles" (stringify {| updatedAt := now;
                                                  features := fs |})]).
      simpl. rewrite Ht. simpl. rewrite <- !app_assoc.
      split; [reflexivity|]. split; [rewrite length_app; simpl; lia|].
      exists m, [Put "miles" (stringify {| updatedAt := now; features := fs |})].
      split; [lia|]. split; [reflexivity|]. right. now eexists.
  - exists pages. simpl. rewrite Ht. simpl. rewrite <- app_assoc.
    split; [reflexivity|]. split; [lia|].
    exists m, []. rewrite app_nil_r. split; [lia|]. now auto.
Qed.

(** X7. In a completed loop the pages requested are, in order, the [url]
    properties of the first 500 features returned, and every feature
    returned has its [mileNumber] equal to its [id]. *)
Theorem requests_match_features (table : list Dom.Node) (w : World)
  (fs : list MileFeature) :
  fst (forRows table 0 [] w) = Return fs ->
  trace (snd (forRows table 0 [] w)) =
    trace w ++ map Fetched (map urlOf (firstn 500 fs))
  /\ Forall (fun f => mileNumber (properties f) = id f) fs.
Proof.
  intros E.
  destruct (forRows_run table 0 [] w) as (m & _ & Ht & _ & Ho).
  rewrite E in Ho. destruct Ho as (-> & out & -> & HF & _). simpl in *.
  split.
  - rewrite Ht. do 2 f_equal.
    rewrite <- !firstn_map. now rewrite (comes_from_urls _ _ HF).
  - apply (comes_from_numbers _ _ HF), parseRows_numbers.
Qed.

(** X8. A record has one coordinate more than its south-boundary cell has
    commas: never none, and two only when the cell has exactly one comma. *)
Theorem coordinates_count (row : Dom.Node) (f : MileFeature) :
  parseRow row = Some f ->
  length (coordinates (geometry f)) = S (count_char "," (cell row 5)).
Proof.
  unfold parseRow. destruct (Num.parseInt _) as [i|]; [|discriminate].
  destruct (neverCaptured _); [discriminate|]. intros [= <-]. simpl.
  now rewrite length_map, length_rev, length_split.
Qed.

(** X9. A report count in the result of a completed loop is never
    negative. *)
Theorem report_counts_not_negative (table : list Dom.Node) (w : World)
  (fs : list MileFeature) :
  fst (forRows table 0 [] w) = Return fs ->
  Forall (fun f => forall n, numReports (properties f) = Some n -> (0 <= n)%Z)
    fs.
Proof.
  intros E.
  destruct (forRows_run table 0 [] w) as (m & _ & _ & _ & Ho).
  rewrite E in Ho. destruct Ho as (_ & out & -> & HF & _). simpl.
  apply (comes_from_counts _ _ HF), parseRows_bare.
Qed.

(** X10. A sheet none of whose rows gives a record (no table, headers only,
    placeholders only): the run requests the sheet and nothing else, and
    throws the "No images" message, not the "Only found 0 miles" one. *)
Theorem no_rows_no_images (w : World) (text : string) :
  network (length (trace w)) sheet = Some text ->
  parseRows (Dom.query (load text) rows) = [] ->
  scheduled w = (Throw (Error noImages), record (Fetched sheet) w).
Proof.
  intros Hn Hp. rewrite scheduled_run, Hn.
  now rewrite (forRows_nothing _ Hp).
Qed.

(** X11. What a completed run leaves under "miles": the serialisation of a
    collection stamped with the clock whose features are the parsed records
    of the sheet, all of them and in row order, enriched or not; there are at
    least ten of them, one at least has no image address and one at least has
    no (or a zero) report count. *)
Theorem persisted_collection (w : World) :
  fst (scheduled w) = Return tt ->
  exists text fs,
    network (length (trace w)) sheet = Some text
    /\ miles_kv (snd (scheduled w)) !! "miles" =
       Some (stringify {| updatedAt := now; features := fs |})
    /\ map unenriched fs = parseRows (Dom.query (load text) rows)
    /\ 10 <= length fs
    /\ (exists f, In f fs /\ truthy (imageUrl (properties f)) = false)
    /\ (exists f, In f fs
                  /\ truthy_number (numReports (properties f)) = false).
Proof.
  intros Hrun.
  destruct (scheduled_cases w)
    as [(e & He & _) | (text & fs & Hn & Hf & Hc & _ & Hk)].
  { rewrite Hrun in He. discriminate. }
  exists text, fs. split; [exact Hn|].
  split; [rewrite Hk; apply lookup_insert_eq|].
  apply check_passes in Hc as (Hi & Hr & Hlen).
  split.
  - destruct (forRows_run (Dom.query (load text) rows) 0 []
                (record (Fetched sheet) w)) as (m & _ & _ & _ & Ho).
    rewrite Hf in Ho. destruct Ho as (_ & out & -> & HF & _). simpl.
    rewrite (comes_from_unenriched _ _ HF). apply parseRows_unenriched.
  - split; [exact Hlen|]. split.
    + exact (forallb_false_In _ _ Hi).
    + exact (forallb_false_In _ _ Hr).
Qed.

(** X12. The verdict of the checks, in their order: "No images" when every
    feature has a non-empty image address (so also for no feature at all);
    otherwise "No reports" when every feature has a non-zero report count;
    otherwise "Only found n miles", [n] being the number of features, when
    there are fewer than ten; otherwise nothing is thrown. *)
Theorem check_verdict (fs : list MileFeature) :
  check fs =
  if forallb (fun f => truthy (imageUrl (properties f))) fs
  then Some noImages
  else if forallb (fun f => truthy_number (numReports (properties f))) fs
       then Some noReports
       else if (length fs <? 10)%nat then Some (onlyFound (length fs))
            else None.
Proof.
  unfold check. rewrite !find_lacking. cbv beta.
  destruct (List.find (fun x => negb (truthy (imageUrl (properties x)))) fs);
    [|reflexivity].
  now destruct (List.find _ fs).
Qed.

(** X13. The two revisions of the read handler answer a request alike
    exactly when its method is GET: the earlier one does not look at the
    method and never answers 403. *)
Theorem revisions_agree_on_GET (request : Request) (w : World) :
  (fst (V1.fetch request w) = fst (fetch request w) <->
   method request = "GET")
  /\ forall response,
       fst (V1.fetch request w) = Return response -> status response <> 403.
Proof.
  unfold V1.fetch, fetch, bind, get, ret.
  destruct (String.eqb_spec (method request) "GET") as [Hm|Hm]; simpl.
  - split; [now split|].
    destruct (negb (truthy (miles_kv w !! "miles")));
      now intros response [= <-].
  - destruct (negb (truthy (miles_kv w !! "miles"))).
    + split; [split; [discriminate | congruence]|].
      now intros response [= <-].
    + split; [split; [discriminate | congruence]|].
      now intros response [= <-].
Qed.

(** X14. The loop over a table made of two parts is the loop over the
    first part followed, unless it threw, by the loop over the second part
    started with the features gathered and with the counter advanced by the
    number of records the first part gave. *)
Theorem forRows_app (t1 t2 : list Dom.Node) :
  forall n acc w,
    forRows (t1 ++ t2) n acc w =
    (let* fs := forRows t1 n acc in
     forRows t2 (n + length (parseRows t1)) fs) w.
Proof.
  unfold bind.
  induction t1 as [|row rest IH]; intros n acc w.
  - simpl. unfold ret. now rewrite Nat.add_0_r.
  - rewrite <- app_comm_cons.
    destruct (parseRow row) as [f|] eqn:E.
    2:{ rewrite !(forRows_skip _ _ _ _ _ E). simpl parseRows. rewrite E.
        apply IH. }
    simpl parseRows. rewrite E. simpl length. rewrite Nat.add_succ_r.
    destruct (Nat.lt_ge_cases n 500) as [Hn|Hn].
    + destruct (network (length (trace w)) (urlOf f)) as [text|] eqn:Hb.
      * rewrite !(forRows_visit _ _ _ _ _ _ _ E Hn Hb). apply IH.
      * now rewrite !(forRows_rejected _ _ _ _ _ _ E Hn Hb).
    + rewrite !(forRows_pass _ _ _ _ _ _ E Hn). apply IH.
Qed.

End More.

Lemma fetch_verdict_witness :
  exists response,
    fst (fetch Probe.GET Sample.start) = Return response
    /\ response = served "old".
Proof.
  destruct (fetch_verdict Probe.GET Sample.start)
    as (response & Hr & _ & _ & _ & Hserved).
  exists response. split; [exact Hr|].
  apply Hserved.
  - reflexivity.
  - vm_compute. reflexivity.
  - discriminate.
Defined.

Lemma fetch_after_completed_run_witness :
  fst (fetch Probe.GET
         (snd (@scheduled
                 (Sample.serving (Sample.miles 10) Sample.barePage None)
                 Sample.start)))
  = Return (served "10").
Proof.
  destruct (@fetch_after_completed_run
              (Sample.serving (Sample.miles 10) Sample.barePage None)
              Sample.start Probe.GET)
    as (text & fs & Hn & Hf & _ & _ & Hserved & _).
  - vm_compute. reflexivity.
  - reflexivity.
  - vm_compute in Hn. injection Hn as <-.
    vm_compute in Hf. injection Hf as <-.
    apply Hserved. vm_compute. discriminate.
Defined.

Lemma fetch_after_failed_run_witness :
  fst (fetch Probe.GET
         (snd (@scheduled
                 (Sample.serving Sample.twelveRows Sample.fullPage None)
                 Sample.start)))
  = fst (fetch Probe.GET Sample.start).
Proof.
  apply (@fetch_after_failed_run
           (Sample.serving Sample.twelveRows Sample.fullPage None)
           Sample.start Probe.GET (Error noImages)).
  vm_compute. reflexivity.
Defined.

Lemma scheduled_other_keys_witness :
  miles_kv (snd (@scheduled
                   (Sample.serving (Sample.miles 10) Sample.barePage None)
                   Sample.start)) !! "other"
  = miles_kv Sample.start !! "other".
Proof.
  apply (@scheduled_other_keys
           (Sample.serving (Sample.miles 10) Sample.barePage None)
           Sample.start "other").
  discriminate.
Defined.

Lemma requests_match_features_witness :
  exists fs,
    fst (@forRows (Sample.serving [] Sample.fullPage None)
           (Sample.miles 3) 0 [] Sample.start) = Return fs
    /\ Forall (fun f => mileNumber (properties f) = id f) fs.
Proof.
  eexists. split; [vm_compute; reflexivity|].
  apply (proj2 (@requests_match_features
                  (Sample.serving [] Sample.fullPage None)
                  (Sample.miles 3) Sample.start _ eq_refl)).
Defined.

Lemma coordinates_count_witness :
  exists f,
    @parseRow Sample.quiet Sample.badCoordinates = Some f
    /\ length (coordinates (geometry f)) = 2.
Proof.
  eexists. split; [vm_compute; reflexivity|].
  apply (@coordinates_count Sample.quiet Sample.badCoordinates).
  vm_compute. reflexivity.
Defined.

Lemma report_counts_not_negative_witness :
  exists fs,
    fst (@forRows (Sample.serving [] Sample.fullPage None)
           (Sample.miles 3) 0 [] Sample.start) = Return fs
    /\ Forall (fun f => forall n,
                   numReports (properties f) = Some n -> (0 <= n)%Z) fs.
Proof.
  eexists. split; [vm_compute; reflexivity|].
  apply (@report_counts_not_negative
           (Sample.serving [] Sample.fullPage None)
           (Sample.miles 3) Sample.start).
  vm_compute. reflexivity.
Defined.

Lemma no_rows_no_images_witness :
  @scheduled (Sample.serving Probe.noMiles Sample.fullPage None) Probe.fresh
  = (Throw (Error noImages), record (Fetched sheet) Probe.fresh).
Proof.
  apply (@no_rows_no_images
           (Sample.serving Probe.noMiles Sample.fullPage None)
           Probe.fresh "sheet").
  - vm_compute. reflexivity.
  - vm_compute. reflexivity.
Defined.

Lemma persisted_collection_witness :
  exists text fs,
    @network (Sample.serving (Sample.miles 10) Sample.barePage None)
      (length (trace Sample.start)) sheet = Some text
    /\ 10 <= length fs
    /\ miles_kv (snd (@scheduled
                        (Sample.serving (Sample.miles 10) Sample.barePage None)
                        Sample.start)) !! "miles"
       = Some (Sample.count {| updatedAt := "2024-01-01T03:00:00.000Z";
                               features := fs |}).
Proof.
  destruct (@persisted_collection
              (Sample.serving (Sample.miles 10) Sample.barePage None)
              Sample.start)
    as (text & fs & Hn & Hk & _ & Hlen & _).
  - vm_compute. reflexivity.
  - exists text, fs. split; [exact Hn|]. split; [exact Hlen | exact Hk].
Defined.

Lemma revisions_agree_on_GET_witness :
  fst (V1.fetch Probe.GET Probe.emptied) = fst (fetch Probe.GET Probe.emptied).
Proof.
  apply (proj1 (revisions_agree_on_GET Probe.GET Probe.emptied)).
  reflexivity.
Defined.

(** ** What a run does not depend on *)

Section Independence.

Context {host : Host}.

Lemma forRows_ignores_store (table : list Dom.Node) :
  forall n acc w1 w2,
    trace w1 = trace w2 ->
    fst (forRows table n acc w1) = fst (forRows table n acc w2)
    /\ trace (snd (forRows table n acc w1)) =
       trace (snd (forRows table n acc w2)).
Proof.
  induction table as [|row rest IH]; intros n acc w1 w2 Ht.
  - simpl. now split.
  - destruct (parseRow row) as [f|] eqn:E.
    2:{ rewrite !(forRows_skip _ _ _ _ _ E). now apply IH. }
    destruct (Nat.lt_ge_cases n 500) as [Hn|Hn].
    + destruct (network (length (trace w1)) (urlOf f)) as [text|] eqn:Hb.
      * rewrite (forRows_visit _ _ _ _ w1 _ _ E Hn Hb).
        rewrite Ht in Hb.
        rewrite (forRows_visit _ _ _ _ w2 _ _ E Hn Hb).
        apply IH. simpl. now rewrite Ht.
      * rewrite (forRows_rejected _ _ _ _ w1 _ E Hn Hb).
        rewrite Ht in Hb.
        rewrite (forRows_rejected _ _ _ _ w2 _ E Hn Hb).
        simpl. now rewrite Ht.
    + rewrite !(forRows_pass _ _ _ _ _ _ E Hn). now apply IH.
Qed.

(** X15. A detail page with no mile image, no report image and no
    results-meta paragraph leaves the record as it was: nothing is added and
    nothing is thrown. *)
Theorem enrich_from_empty_page (page : Dom.Document) (feature : MileFeature) :
  Dom.query page mileImage = [] ->
  Dom.query page reportImages = [] ->
  Dom.query page numResults = [] ->
  enrich page feature = feature.
Proof.
  intros H1 H2 H3. unfold enrich, pickImage, countReports.
  rewrite DomFacts.query_reportImage, H1, H2, H3. simpl.
  now destruct feature as [i [nm u im nr mn] g].
Qed.

(** X16. A run never reads the store: two runs that start after the same
    events, whatever the stores hold, have the same outcome, make the same
    requests and, when they complete, leave the same value under "miles". *)
Theorem scheduled_ignores_store (w1 w2 : World) :
  trace w1 = trace w2 ->
  fst (scheduled w1) = fst (scheduled w2)
  /\ trace (snd (scheduled w1)) = trace (snd (scheduled w2))
  /\ (fst (scheduled w1) = Return tt ->
      miles_kv (snd (scheduled w1)) !! "miles" =
      miles_kv (snd (scheduled w2)) !! "miles").
Proof.
  intros Ht. rewrite !scheduled_run, Ht.
  destruct (network (length (trace w2)) sheet) as [text|].
  2:{ simpl. rewrite Ht. split; [reflexivity|]. split; [reflexivity|].
      discriminate. }
  destruct (forRows_ignores_store (Dom.query (load text) rows) 0 []
              (record (Fetched sheet) w1) (record (Fetched sheet) w2))
    as (Ho & Htr).
  { simpl. now rewrite Ht. }
  destruct (forRows _ 0 [] (record (Fetched sheet) w1)) as [o1 v1].
  destruct (forRows _ 0 [] (record (Fetched sheet) w2)) as [o2 v2].
  simpl in Ho, Htr. subst o2.
  destruct o1 as [fs|e]; simpl.
  - destruct (check fs); simpl.
    + split; [reflexivity|]. split; [exact Htr|]. discriminate.
    + rewrite Htr. split; [reflexivity|]. split; [reflexivity|].
      intros _. now rewrite !lookup_insert_eq.
  - split; [reflexivity|]. split; [exact Htr|]. discriminate.
Qed.

(** X17. A sheet that gives fewer than ten records is never stored: the
    run throws and the store keeps what it held. *)
Theorem few_records_never_stored (w : World) (text : string) :
  network (length (trace w)) sheet = Some text ->
  length (parseRows (Dom.query (load text) rows)) < 10 ->
  (exists e, fst (scheduled w) = Throw e)
  /\ miles_kv (snd (scheduled w)) = miles_kv w.
Proof.
  intros Hn Hlen.
  destruct (scheduled_cases w)
    as [(e & He & Hk) | (text' & fs & Hn' & Hf & Hc & _ & _)].
  { split; [now exists e | exact Hk]. }
  exfalso. rewrite Hn in Hn'. injection Hn' as <-.
  destruct (forRows_run (Dom.query (load text) rows) 0 []
              (record (Fetched sheet) w)) as (m & _ & _ & _ & Ho).
  rewrite Hf in Ho. destruct Ho as (_ & out & -> & HF & _). simpl in Hc.
  apply check_passes in Hc as (_ & _ & Hten).
  apply Forall2_length in HF. lia.
Qed.

End Independence.

Lemma enrich_from_empty_page_witness :
  enrich Sample.barePage Sample.full = Sample.full.
Proof.
  apply (@enrich_from_empty_page Sample.barePage Sample.full);
    vm_compute; reflexivity.
Defined.

Lemma scheduled_ignores_store_witness :
  fst (@scheduled (Sample.serving (Sample.miles 10) Sample.barePage None)
         Sample.start)
  = fst (@scheduled (Sample.serving (Sample.miles 10) Sample.barePage None)
           Probe.fresh).
Proof.
  apply (@scheduled_ignores_store
           (Sample.serving (Sample.miles 10) Sample.barePage None)
           Sample.start Probe.fresh).
  reflexivity.
Defined.

Lemma few_records_never_stored_witness :
  miles_kv (snd (@scheduled
                   (Sample.serving (Sample.miles 9) Sample.barePage None)
                   Sample.start))
  = miles_kv Sample.start.
Proof.
  apply (@few_records_never_stored
           (Sample.serving (Sample.miles 9) Sample.barePage None)
           Sample.start "sheet").
  - vm_compute. reflexivity.
  - vm_compute. lia.
Defined.
